(** * Tinct notify-send output plugin

    A shallow embedding of [contrib/notify-send.py] and the properties of
    its four stages: the capability reporter ([show_plugin_info]), the
    input validator ([validate_palette]), the notification composer and
    the notifier invoker (both inside [send_notification]), tied together
    by [main].

    The plugin is dynamically typed: whatever [json.load] hands over is
    passed around unchecked.  The embedding therefore works on a universe
    of Python values and gives every operation the source applies to them
    its run-time meaning, exceptions included.

    What lies outside the plugin is an input of the model: the argument
    vector, what [json.load(sys.stdin)] comes back with, and what
    [subprocess.run] comes back with for a given command.  A run is the
    list of the events it produces (lines printed, standard input read,
    a process asked for) together with the way it ends.

    The standard streams and the file-system encoding are taken to be
    UTF-8, as CPython sets them up under a UTF-8 locale: text without a
    lone surrogate can always be written and passed on, text with one
    may make [print] or [subprocess.run] raise [UnicodeEncodeError].
    An interrupt from outside is followed where [subprocess.run] hands
    it back as an exception; at any other point of a run it is outside
    the model. *)

From Stdlib Require Import ZArith List String Ascii Bool Lia.
From Stdlib Require Import Permutation DecimalString.
Import ListNotations.

Local Open Scope string_scope.
Local Open Scope list_scope.
Set Warnings "-register-all".

Infix "+++" := String.append (right associativity, at level 60).

(** ** Text

    A Python [str] is represented by the [string] of its UTF-8 bytes, a
    lone surrogate by the three bytes of its code point.  Concatenation,
    equality, emptiness and the substring test are the same on both
    sides of that encoding. *)

Module Text.

Definition nl : string := String "010" "".
Definition dquote : string := String "034" "".
Definition backslash : string := String "092" "".

(** [sep.join(parts)] for parts that are already known to be [str]. *)
Fixpoint join (sep : string) (parts : list string) : string :=
  match parts with
  | [] => ""
  | [p] => p
  | p :: rest => p +++ sep +++ join sep rest
  end.

(** [str(n)] for an [int]. *)
Definition of_Z (n : Z) : string := NilEmpty.string_of_int (Z.to_int n).

Definition of_nat (n : nat) : string := of_Z (Z.of_nat n).

(** [needle in haystack] for two [str]. *)
Fixpoint contains (needle haystack : string) : bool :=
  prefix needle haystack ||
  match haystack with
  | "" => false
  | String _ rest => contains needle rest
  end.

(** [c * n] *)
Fixpoint repeat (c : string) (n : nat) : string :=
  match n with
  | O => ""
  | S k => c +++ repeat c k
  end.

(** The code points of a text: the decoding of its UTF-8 bytes.  A byte
    that does not start a well-formed sequence stands for itself. *)
Definition cont (c : ascii) : N := N.land (N_of_ascii c) 63.

Fixpoint code_points (s : string) : list N :=
  match s with
  | "" => []
  | String c0 r0 =>
      let b := N_of_ascii c0 in
      if (b <? 192)%N then b :: code_points r0
      else if (b <? 224)%N then
        match r0 with
        | String c1 r1 =>
            (N.shiftl (N.land b 31) 6 + cont c1)%N :: code_points r1
        | _ => [b]
        end
      else if (b <? 240)%N then
        match r0 with
        | String c1 (String c2 r2) =>
            (N.shiftl (N.land b 15) 12 + N.shiftl (cont c1) 6 + cont c2)%N
              :: code_points r2
        | _ => b :: code_points r0
        end
      else
        match r0 with
        | String c1 (String c2 (String c3 r3)) =>
            (N.shiftl (N.land b 7) 18 + N.shiftl (cont c1) 12
             + N.shiftl (cont c2) 6 + cont c3)%N :: code_points r3
        | _ => b :: code_points r0
        end
  end.

(** [len(s)] for a [str]: the number of its code points. *)
Definition len (s : string) : nat := List.length (code_points s).

(** A lone surrogate, as [json.load] makes one of an escape such as
    [\ud800]; it is carried as the three bytes of its code point. *)
Definition is_surrogate (cp : N) : bool :=
  (55296 <=? cp)%N && (cp <=? 57343)%N.

Definition has_surrogate (s : string) : bool :=
  existsb is_surrogate (code_points s).

(** Text of ASCII characters only. *)
Fixpoint ascii_only (s : string) : bool :=
  match s with
  | "" => true
  | String c rest => (N_of_ascii c <? 128)%N && ascii_only rest
  end.

(** The surrogates [U+DC80] to [U+DCFF], which the [surrogateescape]
    error handler turns back into single bytes. *)
Definition is_escaped_byte (cp : N) : bool :=
  (56448 <=? cp)%N && (cp <=? 56575)%N.

(** ASCII case mapping, used by [str.title] on the plugin's own literals. *)
Definition is_lower (c : ascii) : bool :=
  let n := nat_of_ascii c in (97 <=? n)%nat && (n <=? 122)%nat.
Definition is_upper (c : ascii) : bool :=
  let n := nat_of_ascii c in (65 <=? n)%nat && (n <=? 90)%nat.
Definition to_upper (c : ascii) : ascii :=
  if is_lower c then ascii_of_nat (nat_of_ascii c - 32) else c.
Definition to_lower (c : ascii) : ascii :=
  if is_upper c then ascii_of_nat (nat_of_ascii c + 32) else c.

(** [s.title()]: a cased character is upper-cased when the character
    before it is not cased, and lower-cased otherwise. *)
Fixpoint title_from (prev_cased : bool) (s : string) : string :=
  match s with
  | "" => ""
  | String c rest =>
      String (if prev_cased then to_lower c else to_upper c)
             (title_from (is_lower c || is_upper c) rest)
  end.

Definition title (s : string) : string := title_from false s.

(** [s.upper()] on ASCII text. *)
Fixpoint ascii_upper (s : string) : string :=
  match s with
  | "" => ""
  | String c rest => String (to_upper c) (ascii_upper rest)
  end.

(** Lower-case hexadecimal digits, most significant first. *)
Definition hex_digit (d : N) : string :=
  String (ascii_of_N (if (d <? 10)%N then 48 + d else 87 + d)) "".

Definition hex4 (n : N) : string :=
  hex_digit (N.land (N.shiftr n 12) 15) +++ hex_digit (N.land (N.shiftr n 8) 15)
  +++ hex_digit (N.land (N.shiftr n 4) 15) +++ hex_digit (N.land n 15).

(** One character of [json.encoder.encode_basestring_ascii]. *)
Definition json_escape (cp : N) : string :=
  if (cp =? 34)%N then backslash +++ dquote
  else if (cp =? 92)%N then backslash +++ backslash
  else if (cp =? 8)%N then backslash +++ "b"
  else if (cp =? 12)%N then backslash +++ "f"
  else if (cp =? 10)%N then backslash +++ "n"
  else if (cp =? 13)%N then backslash +++ "r"
  else if (cp =? 9)%N then backslash +++ "t"
  else if (32 <=? cp)%N && (cp <=? 126)%N then String (ascii_of_N cp) ""
  else if (cp <? 65536)%N then backslash +++ "u" +++ hex4 cp
  else
    let v := (cp - 65536)%N in
    backslash +++ "u" +++ hex4 (55296 + N.land (N.shiftr v 10) 1023)
    +++ backslash +++ "u" +++ hex4 (56320 + N.land v 1023).

Definition encode_basestring_ascii (s : string) : string :=
  dquote +++ String.concat "" (map json_escape (code_points s)) +++ dquote.

End Text.

(** ** The Python run time

    What the interpreter and its library do with floats, what the
    Unicode tables decide for text, and what the encodings of standard
    output and of the file system accept, is taken as an interface:
    every theorem below holds for any implementation of it. *)

Class PyRuntime : Type := {
  (** the values [json.load] produces for numbers with a fraction or an
      exponent, and for [NaN] and [Infinity] *)
  pyfloat : Type;
  (** [bool(x)] *)
  float_truth : pyfloat -> bool;
  (** the [int] a float compares (and hashes) equal to, if there is one *)
  float_as_int : pyfloat -> option Z;
  (** [repr(x)], which is also [str(x)] *)
  float_repr : pyfloat -> string;
  (** the spelling [json.dumps] uses *)
  float_json : pyfloat -> string;
  (** [s.upper()] *)
  str_upper : string -> string;
  (** [repr(s)] *)
  str_repr : string -> string;
  (** upper-casing neither empties a text nor fills an empty one *)
  str_upper_empty : forall s, str_upper s = "" <-> s = "";
  (** [sys.stdout] can encode the text: [print] raises
      [UnicodeEncodeError] when it cannot *)
  stdout_encodes : string -> bool;
  (** [os.fsencode] can encode the text *)
  fs_encodes : string -> bool;
  (** both encodings are UTF-8: whatever their error handlers do with a
      lone surrogate, text without one goes through *)
  stdout_encodes_text :
    forall s, Text.has_surrogate s = false -> stdout_encodes s = true;
  fs_encodes_text :
    forall s, Text.has_surrogate s = false -> fs_encodes s = true
}.

(** Exceptions the plugin can run into.  [ValueError] stands for its
    subclasses too, [UnicodeEncodeError] among them.  [KeyboardInterrupt]
    is no [Exception]; [OtherException] is any other that is one. *)
Inductive exn : Type :=
| TypeError
| AttributeError
| KeyError
| ValueError
| KeyboardInterrupt
| OtherException (name : string).

(** A pure computation that may raise. *)
Inductive res (A : Type) : Type :=
| Ok (a : A)
| Err (e : exn).
Arguments Ok {A} a.
Arguments Err {A} e.

Definition res_bind {A B} (r : res A) (k : A -> res B) : res B :=
  match r with
  | Ok a => k a
  | Err e => Err e
  end.

(** What the process does that the outside can observe. *)
Inductive event : Type :=
| Stdout (line : string)            (* one [print(...)] *)
| Stderr (line : string)            (* one [print(..., file=sys.stderr)] *)
| ReadStdin                         (* [json.load(sys.stdin)] *)
| Spawn (argv : list string).       (* [subprocess.run] asks the OS to run argv *)

(** How a command ends: it falls off its end, raises, or calls [sys.exit]. *)
Inductive outcome (A : Type) : Type :=
| Return (a : A)
| Raise (e : exn)
| SysExit (code : Z).
Arguments Return {A} a.
Arguments Raise {A} e.
Arguments SysExit {A} code.

(** A command: the events it emits, in order, and how it ends. *)
Definition io (A : Type) : Type := list event * outcome A.

Definition io_ret {A} (a : A) : io A := ([], Return a).

Definition io_bind {A B} (m : io A) (k : A -> io B) : io B :=
  match m with
  | (es, Return a) => let (es', o) := k a in (es ++ es', o)
  | (es, Raise e) => (es, Raise e)
  | (es, SysExit c) => (es, SysExit c)
  end.

Definition lift {A} (r : res A) : io A :=
  match r with
  | Ok a => ([], Return a)
  | Err e => ([], Raise e)
  end.

(** [print(line)]: standard output encodes strictly, and text it cannot
    encode raises [UnicodeEncodeError] before any of it is written. *)
Definition print {RT : PyRuntime} (line : string) : io unit :=
  if stdout_encodes line then ([Stdout line], Return tt)
  else ([], Raise ValueError).

(** What a run of [print] calls comes to: the lines ahead of the first
    that cannot be encoded reach standard output, and that one raises. *)
Fixpoint printed {RT : PyRuntime} (lines : list string) : list string :=
  match lines with
  | [] => []
  | line :: rest => if stdout_encodes line then line :: printed rest else []
  end.

Definition print_lines {RT : PyRuntime} (lines : list string) : io unit :=
  (map Stdout (printed lines),
   if forallb stdout_encodes lines then Return tt else Raise ValueError).

(** [print(line, file=sys.stderr)]: standard error replaces what it
    cannot encode by an escape and never raises for it. *)
Definition eprint (line : string) : io unit := ([Stderr line], Return tt).
Definition sys_exit {A} (code : Z) : io A := ([], SysExit code).

Declare Scope res_scope.
Delimit Scope res_scope with res.
Declare Scope io_scope.
Delimit Scope io_scope with io.
Bind Scope res_scope with res.
Bind Scope io_scope with io.

Notation "x <- c ;; k" := (res_bind c (fun x => k))
  (at level 61, c at next level, right associativity) : res_scope.
Notation "x <- c ;; k" := (io_bind c (fun x => k))
  (at level 61, c at next level, right associativity) : io_scope.
Notation "c ;; k" := (io_bind c (fun _ => k))
  (at level 61, right associativity) : io_scope.

(** The exit status the shell sees: 0 when [main] returns, the argument of
    [sys.exit], 1 when an exception reaches the top level, and 130 when
    that is a [KeyboardInterrupt]. *)
Definition exit_status {A} (o : outcome A) : Z :=
  match o with
  | Return _ => 0
  | Raise KeyboardInterrupt => 130
  | Raise _ => 1
  | SysExit c => c
  end.

Definition spawns_of (es : list event) : list (list string) :=
  flat_map (fun e => match e with Spawn a => [a] | _ => [] end) es.

Definition reads_stdin (es : list event) : bool :=
  existsb (fun e => match e with ReadStdin => true | _ => false end) es.

(** ** Python values and the operations the plugin applies to them *)

Section Values.
Context {RT : PyRuntime}.

(** The values [json.load] can return.  A [dict] keeps its entries in
    insertion order; its keys are distinct, and lookup takes the first
    entry of a key. *)
Inductive value : Type :=
| VNone
| VBool (b : bool)
| VInt (n : Z)
| VFloat (x : pyfloat)
| VStr (s : string)
| VList (items : list value)
| VDict (entries : list (string * value)).

Definition dict : Type := list (string * value).

(** [bool(v)] *)
Definition truthy (v : value) : bool :=
  match v with
  | VNone => false
  | VBool b => b
  | VInt n => negb (n =? 0)%Z
  | VFloat x => float_truth x
  | VStr s => negb (s =? "")
  | VList items => match items with [] => false | _ => true end
  | VDict entries => match entries with [] => false | _ => true end
  end.

(** [a or b] *)
Definition py_or (a b : value) : value := if truthy a then a else b.

Fixpoint lookup (k : string) (d : dict) : option value :=
  match d with
  | [] => None
  | (k', v) :: rest => if k =? k' then Some v else lookup k rest
  end.

(** [d[k] = v] *)
Fixpoint store (k : string) (v : value) (d : dict) : dict :=
  match d with
  | [] => [(k, v)]
  | (k', v') :: rest =>
      if k =? k' then (k', v) :: rest else (k', v') :: store k v rest
  end.

(** [repr(v)] *)
Fixpoint py_repr (v : value) : string :=
  match v with
  | VNone => "None"
  | VBool true => "True"
  | VBool false => "False"
  | VInt n => Text.of_Z n
  | VFloat x => float_repr x
  | VStr s => str_repr s
  | VList items => "[" +++ Text.join ", " (map py_repr items) +++ "]"
  | VDict entries =>
      "{" +++ Text.join ", "
                (map (fun kv => str_repr (fst kv) +++ ": " +++ py_repr (snd kv))
                     entries)
      +++ "}"
  end.

(** [str(v)], which is also what [f"{v}"] inserts *)
Definition py_str (v : value) : string :=
  match v with
  | VStr s => s
  | _ => py_repr v
  end.

(** [d.get(k, default)] for a [dict] *)
Definition get_or (d : dict) (k : string) (default : value) : value :=
  match lookup k d with
  | Some x => x
  | None => default
  end.

(** [v.get(k, default)]: only a [dict] has the method. *)
Definition py_get (v : value) (k : string) (default : value) : res value :=
  match v with
  | VDict d => Ok (get_or d k default)
  | _ => Err AttributeError
  end.

(** [v.get(k)] *)
Definition py_get_none (v : value) (k : string) : res value :=
  py_get v k VNone.

(** [v.upper()]: only a [str] has the method. *)
Definition py_upper (v : value) : res string :=
  match v with
  | VStr s => Ok (str_upper s)
  | _ => Err AttributeError
  end.

(** [k in v] for a [str] key [k] *)
Definition py_in (k : string) (v : value) : res bool :=
  match v with
  | VDict d => Ok (match lookup k d with Some _ => true | None => false end)
  | VList items =>
      Ok (existsb (fun x => match x with VStr s => s =? k | _ => false end) items)
  | VStr s => Ok (Text.contains k s)
  | _ => Err TypeError
  end.

(** [v[k]] for a [str] key [k] *)
Definition py_item (v : value) (k : string) : res value :=
  match v with
  | VDict d => match lookup k d with Some x => Ok x | None => Err KeyError end
  | _ => Err TypeError
  end.

(** [len(v)] *)
Definition py_len (v : value) : res nat :=
  match v with
  | VList items => Ok (List.length items)
  | VDict d => Ok (List.length d)
  | VStr s => Ok (Text.len s)
  | _ => Err TypeError
  end.

(** [sep.join(parts)]: every part has to be a [str]. *)
Fixpoint py_join_parts (parts : list value) : res (list string) :=
  match parts with
  | [] => Ok []
  | VStr s :: rest =>
      match py_join_parts rest with
      | Ok l => Ok (s :: l)
      | Err e => Err e
      end
  | _ :: _ => Err TypeError
  end.

Definition py_join (sep : string) (parts : list value) : res string :=
  match py_join_parts parts with
  | Ok l => Ok (Text.join sep l)
  | Err e => Err e
  end.

(** The key an [int]-keyed [dict] files a value under: [True] and [1.0]
    are the key [1].  [None] and [str] are hashable but equal no [int];
    [list] and [dict] are unhashable. *)
Definition int_key (v : value) : res (option Z) :=
  match v with
  | VNone | VStr _ => Ok None
  | VBool b => Ok (Some (if b then 1 else 0)%Z)
  | VInt n => Ok (Some n)
  | VFloat x => Ok (float_as_int x)
  | VList _ | VDict _ => Err TypeError
  end.

(** [json.dumps(v, indent=2)] at nesting depth [level] *)
Definition newline_indent (level : nat) : string :=
  Text.nl +++ Text.repeat " " (2 * level).

Fixpoint dumps (level : nat) (v : value) : string :=
  match v with
  | VNone => "null"
  | VBool true => "true"
  | VBool false => "false"
  | VInt n => Text.of_Z n
  | VFloat x => float_json x
  | VStr s => Text.encode_basestring_ascii s
  | VList [] => "[]"
  | VList items =>
      "[" +++ newline_indent (S level)
      +++ Text.join ("," +++ newline_indent (S level))
                    (map (dumps (S level)) items)
      +++ newline_indent level +++ "]"
  | VDict [] => "{}"
  | VDict entries =>
      "{" +++ newline_indent (S level)
      +++ Text.join ("," +++ newline_indent (S level))
            (map (fun kv => Text.encode_basestring_ascii (fst kv) +++ ": "
                            +++ dumps (S level) (snd kv)) entries)
      +++ newline_indent level +++ "}"
  end.

Definition json_dumps_indent2 (v : value) : string := dumps 0 v.

End Values.

(** ** The plugin *)

(** What [subprocess.run(cmd, check=True, capture_output=True, text=True)]
    can come back with once the operating system has been asked: it
    returns, or raises [CalledProcessError] (here with [str(e)] and
    [e.stderr]), [FileNotFoundError], or something else. *)
Inductive run_result : Type :=
| Completed
| CalledProcessError (message : string) (captured_stderr : string)
| FileNotFoundError
| RunRaises (e : exn).

Section Plugin.
Context {RT : PyRuntime}.

(** What [json.load(sys.stdin)] can come back with when it is left to
    finish: a value, a [JSONDecodeError], or another [Exception].  (An
    interrupt while it reads is no [Exception] and would pass the
    handler of [main]; it is outside what is followed here.) *)
Inductive stdin_result : Type :=
| Parsed (v : value)
| JSONDecodeError (message : string)
| ReadFailure (message : string).

Definition PLUGIN_INFO : value :=
  VDict [ ("name", VStr "notify-send");
          ("type", VStr "output");
          ("version", VStr "1.0.1");
          ("description",
           VStr "Send desktop notifications with colour palette information");
          ("enabled", VBool false);
          ("author", VStr "Tinct Contributors");
          ("requires", VList [VStr "notify-send"]) ].

Definition show_plugin_info : io unit :=
  print (json_dumps_indent2 PLUGIN_INFO).

Definition theme_map : list (Z * string) :=
  [ (0, "auto"); (1, "dark"); (2, "light") ]%Z.

(** [theme_map.get(v, default)] *)
Definition theme_map_get (v : value) (default : string) : res string :=
  (k <- int_key v ;;
   Ok match k with
      | Some n =>
          match find (fun e => (fst e =? n)%Z) theme_map with
          | Some e => snd e
          | None => default
          end
      | None => default
      end)%res.

(** [theme_map.get(theme_type, "unknown").title()] *)
Definition theme_label (theme_type : value) : res string :=
  (theme <- theme_map_get theme_type "unknown" ;;
   Ok (Text.title theme))%res.

Definition role_order : list (string * string) :=
  [ ("background", "Background");
    ("backgroundMuted", "Background Muted");
    ("foreground", "Foreground");
    ("foregroundMuted", "Foreground Muted");
    ("accent1", "Accent 1");
    ("accent2", "Accent 2");
    ("accent3", "Accent 3");
    ("accent4", "Accent 4");
    ("danger", "Danger");
    ("warning", "Warning");
    ("success", "Success");
    ("info", "Info");
    ("notification", "Notification") ].

(** A [for] loop whose body may raise, threading the loop state. *)
Fixpoint for_each {A S} (body : S -> A -> res S) (s : S) (l : list A)
  : res S :=
  match l with
  | [] => Ok s
  | x :: rest => (s' <- body s x ;; for_each body s' rest)%res
  end.

(** The body of the loop over [role_order]. *)
Definition role_step (colors show_hex : value) (body_lines : list string)
           (role : string * string) : res (list string) :=
  let (role_key, role_label) := role in
  (present <- py_in role_key colors ;;
   if present : bool then
     color_data <- py_item colors role_key ;;
     hex <- py_get color_data "hex" (VStr "") ;;
     hex_color <- py_upper hex ;;
     if negb (hex_color =? "") && truthy show_hex
     then Ok (body_lines ++ ["  " +++ role_label +++ ": " +++ hex_color])
     else Ok body_lines
   else Ok body_lines)%res.

(** The local variables of [send_notification] once the command has
    been built. *)
Record locals : Type := {
  theme_str : string;
  urgency : value;
  timeout : value;
  app_name : value;
  icon : value;
  title : value;
  body_lines : list string;
  body : string;
  cmd : list value
}.

(** [send_notification] up to the point where it looks at [dry_run]:
    the title, the body and the command.  Nothing is printed and no
    process is touched on the way. *)
Definition compose (palette plugin_args : value) : res locals :=
  (theme_type <- py_get palette "theme_type" (VInt 0) ;;
   colours <- py_get_none palette "colours" ;;
   let colors := py_or colours (VDict []) in
   all_colours <- py_get_none palette "all_colours" ;;
   let all_colors := py_or all_colours (VList []) in
   theme_str <- theme_label theme_type ;;
   urgency <- py_get plugin_args "urgency" (VStr "normal") ;;
   timeout <- py_get plugin_args "timeout" (VInt 10000) ;;
   title_prefix <- py_get plugin_args "title_prefix" (VStr "") ;;
   show_hex <- py_get plugin_args "show_hex" (VBool true) ;;
   show_count <- py_get plugin_args "show_count" (VBool true) ;;
   app_name <- py_get plugin_args "app_name" (VStr "Tinct") ;;
   icon <- py_get plugin_args "icon" (VStr "preferences-desktop-theme") ;;
   let title :=
     if truthy title_prefix
     then VStr (py_str title_prefix +++ " Tinct Colour Palette ("
                +++ theme_str +++ " Theme)")
     else VStr ("Tinct Colour Palette (" +++ theme_str +++ " Theme)") in
   has_title <- py_in "title" plugin_args ;;
   title <- (if has_title : bool then py_item plugin_args "title"
             else Ok title) ;;
   let body_lines := [] in
   body_lines <- for_each (role_step colors show_hex) body_lines role_order ;;
   body_lines <-
     (if truthy all_colors && truthy show_count
      then n <- py_len all_colors ;;
           Ok (body_lines
               ++ [Text.nl +++ "Total colours extracted: " +++ Text.of_nat n])
      else Ok body_lines) ;;
   has_message <- py_in "message" plugin_args ;;
   body_lines <-
     (if has_message : bool
      then message <- py_item plugin_args "message" ;;
           Ok (body_lines ++ [Text.nl +++ py_str message])
      else Ok body_lines) ;;
   let body := Text.join Text.nl body_lines in
   let cmd := [VStr "notify-send"] in
   let cmd := if truthy app_name then cmd ++ [VStr "-a"; app_name] else cmd in
   let cmd := if truthy icon then cmd ++ [VStr "-i"; icon] else cmd in
   let cmd := cmd ++ [VStr "-u"; urgency] in
   let cmd := cmd ++ [VStr "-t"; VStr (py_str timeout)] in
   let cmd := cmd ++ [title; VStr body] in
   Ok {| theme_str := theme_str; urgency := urgency; timeout := timeout;
         app_name := app_name; icon := icon; title := title;
         body_lines := body_lines; body := body; cmd := cmd |})%res.

(** [subprocess.run]: the arguments are converted one after the other
    before the operating system is asked at all; one that is no [str]
    raises [TypeError], one that the file-system encoding cannot encode
    [UnicodeEncodeError], one with a NUL in it [ValueError]. *)
Definition has_nul (s : string) : bool := Text.contains (String "000" "") s.

Fixpoint exec_args (cmd : list value) : res (list string) :=
  match cmd with
  | [] => Ok []
  | VStr s :: rest =>
      if negb (fs_encodes s) || has_nul s then Err ValueError
      else match exec_args rest with
           | Ok argv => Ok (s :: argv)
           | Err e => Err e
           end
  | _ :: _ => Err TypeError
  end.

Definition subprocess_run (notifier : list string -> run_result)
           (cmd : list value) : io run_result :=
  match exec_args cmd with
  | Err e => ([], Raise e)
  | Ok argv => ([Spawn argv], Return (notifier argv))
  end.

Definition send_notification (notifier : list string -> run_result)
           (palette plugin_args dry_run : value) : io unit :=
  (l <- lift (compose palette plugin_args) ;;
   if truthy dry_run then
     print "=== DRY-RUN MODE ===" ;;
     print "Would send notification with command:" ;;
     line <- lift (py_join " " (cmd l)) ;;
     print ("  " +++ line) ;;
     print (Text.nl +++ "Title: " +++ py_str (title l)) ;;
     print ("Body:" +++ Text.nl +++ body l) ;;
     print (Text.nl +++ "Settings:") ;;
     print ("  Urgency: " +++ py_str (urgency l)) ;;
     print ("  Timeout: " +++ py_str (timeout l) +++ "ms") ;;
     print ("  App Name: " +++ py_str (app_name l)) ;;
     print ("  Icon: " +++ py_str (icon l)) ;;
     print "==================="
   else
     r <- subprocess_run notifier (cmd l) ;;
     match r with
     | Completed =>
         print "✓ Notification sent successfully" ;;
         verbose <- lift (py_get plugin_args "verbose" (VBool false)) ;;
         if truthy verbose then
           line <- lift (py_join " " (cmd l)) ;;
           print ("  Command: " +++ line) ;;
           print ("  Title: " +++ py_str (title l)) ;;
           print ("  Icon: " +++ py_str (icon l)) ;;
           print ("  Colours shown: "
                  +++ Text.of_nat
                        (List.length
                           (filter (Text.contains ":") (body_lines l))))
         else io_ret tt
     | CalledProcessError e captured =>
         eprint ("✗ Error: Failed to send notification: " +++ e) ;;
         (if negb (captured =? "")
          then eprint ("  stderr: " +++ captured) else io_ret tt) ;;
         sys_exit 1
     | FileNotFoundError =>
         eprint "✗ Error: notify-send command not found. Please install libnotify." ;;
         eprint "  Ubuntu/Debian: sudo apt-get install libnotify-bin" ;;
         eprint "  Arch: sudo pacman -S libnotify" ;;
         eprint "  Fedora: sudo dnf install libnotify" ;;
         sys_exit 1
     | RunRaises e => ([], Raise e)
     end)%io.

Definition validate_palette (palette : value) : io bool :=
  match palette with
  | VDict d =>
      match lookup "colours" d, lookup "all_colours" d with
      | None, None =>
          (eprint "Error: Invalid palette - missing 'colours' or 'all_colours' field" ;;
           io_ret false)%io
      | _, _ => io_ret true
      end
  | _ =>
      (eprint "Error: Invalid palette format - expected JSON object" ;;
       io_ret false)%io
  end.

Definition plugin_info_requested (argv : list string) : bool :=
  (1 <? List.length argv)%nat && (nth 1 argv "" =? "--plugin-info").

Definition rule : string := Text.repeat "=" 50.

Definition main (argv : list string) (stdin : stdin_result)
           (notifier : list string -> run_result) : io unit :=
  (if plugin_info_requested argv then
     show_plugin_info ;;
     sys_exit 0
   else
     ([ReadStdin], Return tt) ;;
     palette_data <-
       match stdin with
       | Parsed v => io_ret v
       | JSONDecodeError e =>
           eprint ("Error: Failed to parse JSON input: " +++ e) ;;
           sys_exit 1
       | ReadFailure e =>
           eprint ("Error: Failed to read input: " +++ e) ;;
           sys_exit 1
       end ;;
     valid <- validate_palette palette_data ;;
     if negb valid then sys_exit 1
     else
       plugin_args <- lift (py_get palette_data "plugin_args" (VDict [])) ;;
       dry_run <- lift (py_get palette_data "dry_run" (VBool false)) ;;
       verbose <- lift (py_get plugin_args "verbose" (VBool false)) ;;
       (if truthy (py_or verbose dry_run) then
          print (Text.nl +++ rule) ;;
          version <- lift (py_item PLUGIN_INFO "version") ;;
          print ("Tinct Notify-Send Plugin v" +++ py_str version) ;;
          print rule ;;
          print ("Dry-run mode: " +++ py_str dry_run) ;;
          print ("Plugin args: "
                 +++ (if truthy plugin_args
                      then json_dumps_indent2 plugin_args else "none")) ;;
          print (rule +++ Text.nl)
        else io_ret tt) ;;
       send_notification notifier palette_data plugin_args dry_run)%io.

End Plugin.

(** ** A reference run time

    ASCII case mapping, no floats, strict UTF-8 on standard output and
    UTF-8 with [surrogateescape] towards the operating system: enough to
    run the plugin on concrete palettes.  [repr] of a [str] picks its
    quotes as Python does and escapes what is not printable. *)

Module Reference.

Definition hex2 (n : N) : string :=
  Text.hex_digit (N.land (N.shiftr n 4) 15) +++ Text.hex_digit (N.land n 15).

Definition repr_char (quote : ascii) (c : ascii) : string :=
  let n := N_of_ascii c in
  if (n =? 92)%N then Text.backslash +++ Text.backslash
  else if Ascii.eqb c quote then Text.backslash +++ String c ""
  else if (n =? 10)%N then Text.backslash +++ "n"
  else if (n =? 13)%N then Text.backslash +++ "r"
  else if (n =? 9)%N then Text.backslash +++ "t"
  else if (n <? 32)%N || (126 <? n)%N then Text.backslash +++ "x" +++ hex2 n
  else String c "".

Fixpoint repr_chars (quote : ascii) (s : string) : string :=
  match s with
  | "" => ""
  | String c rest => repr_char quote c +++ repr_chars quote rest
  end.

Definition ascii_repr (s : string) : string :=
  let quote : ascii :=
    if Text.contains "'" s && negb (Text.contains Text.dquote s)
    then "034"%char else "'"%char in
  String quote (repr_chars quote s) +++ String quote "".

Lemma ascii_upper_empty (s : string) : Text.ascii_upper s = "" <-> s = "".
Proof.
  destruct s as [|c rest]; simpl; split; intros E;
    solve [reflexivity | discriminate E].
Qed.

(** standard output with the [strict] handler *)
Definition stdout_strict (s : string) : bool := negb (Text.has_surrogate s).

(** the file-system encoding with the [surrogateescape] handler *)
Definition fs_escaping (s : string) : bool :=
  forallb (fun cp => negb (Text.is_surrogate cp) || Text.is_escaped_byte cp)
          (Text.code_points s).

Lemma stdout_strict_text (s : string) :
  Text.has_surrogate s = false -> stdout_strict s = true.
Proof. unfold stdout_strict. now intros ->. Qed.

Lemma fs_escaping_text (s : string) :
  Text.has_surrogate s = false -> fs_escaping s = true.
Proof.
  unfold Text.has_surrogate, fs_escaping.
  induction (Text.code_points s) as [|cp cps IH]; cbn; [reflexivity|].
  destruct (Text.is_surrogate cp); cbn; [discriminate | exact IH].
Qed.

Definition runtime : PyRuntime :=
  {| pyfloat := Empty_set;
     float_truth := fun x => match x with end;
     float_as_int := fun x => match x with end;
     float_repr := fun x => match x with end;
     float_json := fun x => match x with end;
     str_upper := Text.ascii_upper;
     str_repr := ascii_repr;
     str_upper_empty := ascii_upper_empty;
     stdout_encodes := stdout_strict;
     fs_encodes := fs_escaping;
     stdout_encodes_text := stdout_strict_text;
     fs_encodes_text := fs_escaping_text |}.

End Reference.

(** ** The specification's reading of the composer and the invoker

    Section 4.3 and 4.4 of the specification, written down as they are
    worded there, to be compared with [compose]. *)

Module Spec.
Section Spec.
Context {RT : PyRuntime}.

(** 4.3 step 2: an explicit [title] wins; otherwise the generated title,
    with the prefix in front when there is one. *)
Definition title_for (args : dict) (theme : string) : value :=
  match lookup "title" args with
  | Some t => t
  | None =>
      let prefix := get_or args "title_prefix" (VStr "") in
      if truthy prefix
      then VStr (py_str prefix +++ " Tinct Colour Palette (" +++ theme +++ " Theme)")
      else VStr ("Tinct Colour Palette (" +++ theme +++ " Theme)")
  end.

(** 4.3 step 3a and 4: the hex value a role has to show, if any. *)
Definition shown_hex (colours : dict) (role_key : string) : option string :=
  match lookup role_key colours with
  | Some (VDict record) =>
      match lookup "hex" record with
      | Some (VStr h) => if h =? "" then None else Some h
      | _ => None
      end
  | _ => None
  end.

(** 4.3 step 3a: one line per canonical role that has something to show,
    in the order of the canonical list. *)
Definition role_lines_of (roles : list (string * string)) (colours : dict)
  : list string :=
  flat_map (fun role =>
              match shown_hex colours (fst role) with
              | Some h => ["  " +++ snd role +++ ": " +++ str_upper h]
              | None => []
              end) roles.

Definition role_lines (colours : dict) : list string :=
  role_lines_of role_order colours.

(** 4.3 step 3b: the count line *)
Definition count_line (n : nat) : string :=
  Text.nl +++ "Total colours extracted: " +++ Text.of_nat n.

(** 4.3 step 3c: the message line *)
Definition message_lines (args : dict) : list string :=
  match lookup "message" args with
  | Some m => [Text.nl +++ py_str m]
  | None => []
  end.

(** 4.4: the argument vector *)
Definition command (app_name icon urgency timeout title : value)
           (body : string) : list value :=
  [VStr "notify-send"]
  ++ (if truthy app_name then [VStr "-a"; app_name] else [])
  ++ (if truthy icon then [VStr "-i"; icon] else [])
  ++ [VStr "-u"; urgency; VStr "-t"; VStr (py_str timeout); title; VStr body].

(** 4.4, dry run: the block that is printed *)
Definition dry_run_block (l : locals) (argv : list string) : list string :=
  [ "=== DRY-RUN MODE ===";
    "Would send notification with command:";
    "  " +++ Text.join " " argv;
    Text.nl +++ "Title: " +++ py_str (title l);
    "Body:" +++ Text.nl +++ body l;
    Text.nl +++ "Settings:";
    "  Urgency: " +++ py_str (urgency l);
    "  Timeout: " +++ py_str (timeout l) +++ "ms";
    "  App Name: " +++ py_str (app_name l);
    "  Icon: " +++ py_str (icon l);
    "===================" ].

(** the banner [main] prints ahead of a dry or verbose run *)
Definition banner (plugin_args dry_run : value) : list string :=
  [ Text.nl +++ rule;
    "Tinct Notify-Send Plugin v1.0.1";
    rule;
    "Dry-run mode: " +++ py_str dry_run;
    "Plugin args: " +++ (if truthy plugin_args
                         then json_dumps_indent2 plugin_args else "none");
    rule +++ Text.nl ].

End Spec.

(** 4.1: the descriptor as it appears on standard output *)
Definition quoted (s : string) : string := Text.dquote +++ s +++ Text.dquote.

Definition descriptor_text : string :=
  Text.join Text.nl
    [ "{";
      "  " +++ quoted "name" +++ ": " +++ quoted "notify-send" +++ ",";
      "  " +++ quoted "type" +++ ": " +++ quoted "output" +++ ",";
      "  " +++ quoted "version" +++ ": " +++ quoted "1.0.1" +++ ",";
      "  " +++ quoted "description" +++ ": "
        +++ quoted "Send desktop notifications with colour palette information"
        +++ ",";
      "  " +++ quoted "enabled" +++ ": false,";
      "  " +++ quoted "author" +++ ": " +++ quoted "Tinct Contributors" +++ ",";
      "  " +++ quoted "requires" +++ ": [";
      "    " +++ quoted "notify-send";
      "  ]";
      "}" ].

End Spec.

(** ** Shapes of input

    The data model of the specification gives the fields of a palette
    their types.  [json.load] enforces none of them; these predicates
    say which of them the plugin relies on. *)

Section Shapes.
Context {RT : PyRuntime}.

(** not a [list] and not a [dict]: usable as a key of [theme_map] *)
Definition scalar (v : value) : bool :=
  match v with
  | VList _ | VDict _ => false
  | _ => true
  end.

(** has a [len] *)
Definition sized (v : value) : bool :=
  match v with
  | VList _ | VDict _ | VStr _ => true
  | _ => false
  end.

Definition is_str (v : value) : bool :=
  match v with
  | VStr _ => true
  | _ => false
  end.

(** a colour record: an object whose [hex], when it has one, is a string *)
Definition colour_record (v : value) : bool :=
  match v with
  | VDict record =>
      match lookup "hex" record with
      | None | Some (VStr _) => true
      | Some _ => false
      end
  | _ => false
  end.

(** a role is absent from the mapping or bound to a colour record *)
Definition role_is_record (colours : dict) (role : string * string) : bool :=
  match lookup (fst role) colours with
  | None => true
  | Some v => colour_record v
  end.

(** every canonical role the mapping has is bound to a colour record *)
Definition roles_are_records (colours : dict) : bool :=
  forallb (role_is_record colours) role_order.

(** the mapping the composer works with: [palette.get("colours") or {}],
    when that is a mapping *)
Definition colours_of (palette : dict) : dict :=
  match py_or (get_or palette "colours" VNone) (VDict []) with
  | VDict cs => cs
  | _ => []
  end.

Definition theme_type_ok (palette : dict) : bool :=
  scalar (get_or palette "theme_type" (VInt 0)).

Definition colours_is_mapping (palette : dict) : bool :=
  match get_or palette "colours" VNone with
  | VDict _ => true
  | v => negb (truthy v)
  end.

Definition all_colours_ok (palette : dict) : bool :=
  let v := get_or palette "all_colours" VNone in
  sized v || negb (truthy v).

(** a role can be looked for in [colors] and, when it is found there,
    read: in a mapping it is absent or bound to a colour record; in a
    string or a list it does not occur (what is found in one of these
    cannot be subscripted by a string); nothing else can be searched *)
Definition role_readable (colors : value) (role : string * string) : bool :=
  match colors with
  | VDict cs => role_is_record cs role
  | VStr s => negb (Text.contains (fst role) s)
  | VList items =>
      negb (existsb (fun x => match x with
                              | VStr s => s =? fst role
                              | _ => false
                              end) items)
  | _ => false
  end.

(** what the composer needs of a palette and a configuration: a
    [theme_type] that can be a key, canonical roles that can be read,
    and an [all_colours] that has a length when it is to be counted *)
Definition composable (palette args : dict) : bool :=
  let colors := py_or (get_or palette "colours" VNone) (VDict []) in
  let all_colors := py_or (get_or palette "all_colours" VNone) (VList []) in
  theme_type_ok palette
  && forallb (role_readable colors) role_order
  && (negb (truthy all_colors && truthy (get_or args "show_count" (VBool true)))
      || sized all_colors).

(** the invariant of the data model: one of the two colour fields is there *)
Definition has_colour_field (palette : dict) : bool :=
  match lookup "colours" palette, lookup "all_colours" palette with
  | None, None => false
  | _, _ => true
  end.

(** a palette as the data model types it, as far as the composer cares *)
Definition palette_ok (palette : dict) : bool :=
  theme_type_ok palette && colours_is_mapping palette
  && roles_are_records (colours_of palette) && all_colours_ok palette.

(** a configuration as the data model types it, as far as the command
    line cares: what goes into the command unconverted is a string *)
Definition config_ok (args : dict) : bool :=
  is_str (get_or args "urgency" (VStr "normal"))
  && is_str (get_or args "app_name" (VStr "Tinct"))
  && is_str (get_or args "icon" (VStr "preferences-desktop-theme"))
  && match lookup "title" args with Some t => is_str t | None => true end.

End Shapes.

(** ** What a live run reports

    The lines and events that follow the request for a process, put
    together as [send_notification] produces them. *)

Section Reports.
Context {RT : PyRuntime}.

(** the number [send_notification] reports as "Colours shown" *)
Definition colours_shown (l : locals) : nat :=
  List.length (filter (Text.contains ":") (body_lines l)).

(** what is printed once the process has completed *)
Definition report_lines (verbose : value) (l : locals) (argv : list string)
  : list string :=
  "✓ Notification sent successfully"
  :: (if truthy verbose
      then [ "  Command: " +++ Text.join " " argv;
             "  Title: " +++ py_str (title l);
             "  Icon: " +++ py_str (icon l);
             "  Colours shown: " +++ Text.of_nat (colours_shown l) ]
      else []).

(** what follows the request for a process, by what came back *)
Definition live_report (verbose : value) (l : locals) (argv : list string)
           (r : run_result) : io unit :=
  match r with
  | Completed => print_lines (report_lines verbose l argv)
  | CalledProcessError e captured =>
      (Stderr ("✗ Error: Failed to send notification: " +++ e)
       :: (if captured =? "" then []
           else [Stderr ("  stderr: " +++ captured)]),
       SysExit 1)
  | FileNotFoundError =>
      ([ Stderr "✗ Error: notify-send command not found. Please install libnotify.";
         Stderr "  Ubuntu/Debian: sudo apt-get install libnotify-bin";
         Stderr "  Arch: sudo pacman -S libnotify";
         Stderr "  Fedora: sudo dnf install libnotify" ],
       SysExit 1)
  | RunRaises e => ([], Raise e)
  end.

End Reports.

(** ** Sample input, on the reference run time *)

Module Sample.

Definition colours : @dict Reference.runtime :=
  [ ("accent1", VDict [("hex", VStr "#abc123")]);
    ("background", VDict [("hex", VStr "#00ff00")]);
    ("danger", VDict []);
    ("info", VDict [("hex", VStr "")]) ].

Definition all_colours : @value Reference.runtime :=
  VList [ VDict [("hex", VStr "#00ff00")]; VDict [("hex", VStr "#abc123")];
          VDict [("hex", VStr "#101010")]; VDict [("hex", VStr "#202020")];
          VDict [("hex", VStr "#303030")] ].

(** a configuration with both an explicit title and a prefix *)
Definition args : @dict Reference.runtime :=
  [ ("title", VStr "New Theme!"); ("title_prefix", VStr "Hi");
    ("message", VStr "done") ].

Definition palette : @dict Reference.runtime :=
  [ ("theme_type", VInt 1); ("colours", VDict colours);
    ("all_colours", all_colours); ("dry_run", VBool true);
    ("plugin_args", VDict args) ].

(** only the flat list of colours, five of them *)
Definition flat_palette : @dict Reference.runtime :=
  [ ("colours", VDict []); ("all_colours", all_colours) ].

(** [{"colours": null}] *)
Definition null_palette : @dict Reference.runtime := [ ("colours", VNone) ].

(** [{"colours": {}}] *)
Definition empty_colours : @dict Reference.runtime := [ ("colours", VDict []) ].

(** a colour role bound to a string instead of a record, in a dry run *)
Definition string_role : @dict Reference.runtime :=
  [ ("colours", VDict [("background", VStr "#ffffff")]);
    ("dry_run", VBool true) ].

(** a numeric urgency, in a dry run *)
Definition numeric_urgency : @dict Reference.runtime :=
  [ ("colours", VDict []); ("dry_run", VBool true);
    ("plugin_args", VDict [("urgency", VInt 5)]) ].

(** the text [json.load] makes of the escape [\ud800]: one code point,
    a surrogate with no partner *)
Definition lone_surrogate : string := String "237" (String "160" (String "128" "")).

(** a title that is a lone surrogate, in a dry run *)
Definition surrogate_title : @dict Reference.runtime :=
  [ ("colours", VDict []); ("dry_run", VBool true);
    ("plugin_args", VDict [("title", VStr lone_surrogate)]) ].

Definition notifier_ok (argv : list string) : run_result := Completed.

End Sample.

(** * Properties *)

Section Facts.
Context {RT : PyRuntime}.

(** ** Dictionaries *)

Lemma lookup_permutation (d d' : dict) :
  Permutation d d' -> NoDup (map fst d) ->
  forall k, lookup k d = lookup k d'.
Proof.
  induction 1 as [|[k0 v0] d d' Hperm IH|[k1 v1] [k2 v2] d|d d' d'' H1 IH1 H2 IH2];
    intros Hnd k.
  - reflexivity.
  - simpl in *. inversion Hnd; subst.
    destruct (k =? k0); [reflexivity | now apply IH].
  - simpl in *. inversion Hnd as [|? ? Hnotin Hnd']; subst.
    destruct (String.eqb_spec k k1) as [->|]; [|reflexivity].
    destruct (String.eqb_spec k1 k2) as [->|]; [|reflexivity].
    exfalso. apply Hnotin. now left.
  - rewrite IH1 by assumption. apply IH2.
    eapply Permutation_NoDup; [|exact Hnd].
    now apply Permutation_map.
Qed.

Lemma lookup_store_same (k : string) (v : value) (d : dict) :
  lookup k (store k v d) = Some v.
Proof.
  induction d as [|[k' v'] d IH]; simpl.
  - now rewrite String.eqb_refl.
  - destruct (k =? k') eqn:E; simpl; rewrite E; [reflexivity | exact IH].
Qed.

Lemma lookup_store_other (k k' : string) (v : value) (d : dict) :
  k' <> k -> lookup k' (store k v d) = lookup k' d.
Proof.
  intros Hne. induction d as [|[k0 v0] d IH]; simpl.
  - destruct (String.eqb_spec k' k); [contradiction | reflexivity].
  - destruct (String.eqb_spec k k0) as [->|]; simpl.
    + destruct (String.eqb_spec k' k0); [contradiction | reflexivity].
    + destruct (k' =? k0); [reflexivity | exact IH].
Qed.

(** ** The composer in one piece

    [compose] on a palette object and a configuration object, with the
    lookups resolved: the stages that can raise, and the record they
    lead to. *)

Lemma compose_stages (p a : dict) :
  compose (VDict p) (VDict a) =
  (let colors := py_or (get_or p "colours" VNone) (VDict []) in
   let all_colors := py_or (get_or p "all_colours" VNone) (VList []) in
   theme <- theme_label (get_or p "theme_type" (VInt 0)) ;;
   roles <- for_each (role_step colors (get_or a "show_hex" (VBool true)))
                     [] role_order ;;
   count <- (if truthy all_colors && truthy (get_or a "show_count" (VBool true))
             then n <- py_len all_colors ;; Ok [Spec.count_line n]
             else Ok []) ;;
   let lines := roles ++ count ++ Spec.message_lines a in
   let text := Text.join Text.nl lines in
   let app := get_or a "app_name" (VStr "Tinct") in
   let icon := get_or a "icon" (VStr "preferences-desktop-theme") in
   let urgency := get_or a "urgency" (VStr "normal") in
   let timeout := get_or a "timeout" (VInt 10000) in
   Ok {| theme_str := theme; urgency := urgency; timeout := timeout;
         app_name := app; icon := icon;
         title := Spec.title_for a theme;
         body_lines := lines; body := text;
         cmd := Spec.command app icon urgency timeout
                             (Spec.title_for a theme) text |})%res.
Proof.
  unfold compose, Spec.title_for, Spec.message_lines, Spec.command, Spec.count_line.
  cbn [py_get py_get_none py_in py_item res_bind].
  destruct (theme_label _) as [theme|e]; cbn [res_bind]; [|reflexivity].
  destruct (lookup "title" a) as [t|]; cbn [res_bind];
    (destruct (for_each _ _ _) as [roles|e]; cbn [res_bind]; [|reflexivity]);
    (destruct (truthy (py_or _ (VList [])) && _); cbn [res_bind];
     [destruct (py_len _) as [n|e]; cbn [res_bind]; [|reflexivity]|]);
    (destruct (lookup "message" a) as [m|]; cbn [res_bind]);
    destruct (truthy (get_or a "app_name" _)), (truthy (get_or a "icon" _));
    cbn [app]; rewrite <- ?app_assoc, ?app_nil_r; reflexivity.
Qed.


(** ** The loop over the canonical roles *)

(** One turn of the loop on a mapping: a role that is absent leaves the
    lines alone, a colour record adds the line the specification asks
    for, anything else raises. *)
Lemma role_step_on_mapping (cs : dict) (show_hex : value)
      (acc : list string) (role : string * string) :
  role_step (VDict cs) show_hex acc role =
  if role_is_record cs role
  then Ok (acc ++ (if truthy show_hex then Spec.role_lines_of [role] cs else []))
  else Err AttributeError.
Proof.
  destruct role as [key label].
  unfold role_step, role_is_record, Spec.role_lines_of, Spec.shown_hex.
  cbn [py_in py_item res_bind fst snd flat_map].
  destruct (lookup key cs) as [v|]; cbn [res_bind].
  2: { destruct (truthy show_hex); now rewrite app_nil_r. }
  destruct v as [| | | | |items|record]; try reflexivity.
  cbn [py_get res_bind colour_record]. unfold get_or.
  destruct (lookup "hex" record) as [hex|]; cbn [py_upper res_bind].
  - destruct hex as [| | | |h| |]; try reflexivity.
    cbn [py_upper res_bind colour_record].
    destruct (String.eqb_spec h "") as [->|Hne].
    + rewrite (proj2 (str_upper_empty "") eq_refl). cbn.
      destruct (truthy show_hex); now rewrite app_nil_r.
    + destruct (String.eqb_spec (str_upper h) "") as [E|_].
      * exfalso. apply Hne. now apply str_upper_empty.
      * cbn. destruct (truthy show_hex); cbn; now rewrite ?app_nil_r.
  - rewrite (proj2 (str_upper_empty "") eq_refl). cbn.
    destruct (truthy show_hex); now rewrite app_nil_r.
Qed.

Lemma role_lines_of_cons (role : string * string) (roles : list (string * string))
      (cs : dict) :
  Spec.role_lines_of (role :: roles) cs
  = Spec.role_lines_of [role] cs ++ Spec.role_lines_of roles cs.
Proof.
  unfold Spec.role_lines_of. cbn [flat_map]. now rewrite app_nil_r.
Qed.

(** The whole loop on a mapping, by induction on the roles still to
    visit: it raises as soon as a role is bound to something that is no
    colour record, and otherwise appends the specified lines in order. *)
Lemma role_loop_on_mapping (cs : dict) (show_hex : value)
      (roles : list (string * string)) :
  forall acc,
    for_each (role_step (VDict cs) show_hex) acc roles =
    if forallb (role_is_record cs) roles
    then Ok (acc ++ (if truthy show_hex then Spec.role_lines_of roles cs else []))
    else Err AttributeError.
Proof.
  induction roles as [|role roles IH]; intros acc.
  - cbn. destruct (truthy show_hex); now rewrite app_nil_r.
  - cbn [for_each forallb]. rewrite role_step_on_mapping.
    destruct (role_is_record cs role); cbn [res_bind andb]; [|reflexivity].
    rewrite IH. destruct (forallb _ roles); [|reflexivity].
    rewrite (role_lines_of_cons role roles).
    destruct (truthy show_hex); now rewrite <- ?app_assoc, ?app_nil_r.
Qed.

(** On anything that is no mapping the loop adds nothing when it gets
    through: a role found in a string or a list cannot be subscripted. *)
Lemma role_loop_off_mapping (colors show_hex : value)
      (roles : list (string * string)) :
  match colors with VDict _ => False | _ => True end ->
  forall acc out,
    for_each (role_step colors show_hex) acc roles = Ok out -> out = acc.
Proof.
  intros Hcolors.
  induction roles as [|[key label] roles IH]; intros acc out H.
  - cbn in H. congruence.
  - cbn [for_each] in H. unfold role_step in H at 1.
    destruct colors as [| | | |s|items|cs]; cbn in H;
      try discriminate H; try contradiction.
    + destruct (Text.contains key s); cbn in H; [discriminate H|].
      now apply IH.
    + destruct (existsb _ items); cbn in H; [discriminate H|].
      now apply IH.
Qed.

(** What the loop leaves behind when it gets through with [show_hex] on. *)
Lemma role_loop_result (p : dict) (show_hex : value) (roles : list string) :
  truthy show_hex = true ->
  for_each (role_step (py_or (get_or p "colours" VNone) (VDict [])) show_hex)
           [] role_order = Ok roles ->
  roles = Spec.role_lines (colours_of p).
Proof.
  intros Hshow. unfold colours_of.
  destruct (py_or (get_or p "colours" VNone) (VDict [])) as [| | | | | |cs];
    intros H;
    try (match type of H with
         | for_each (role_step ?c ?s) _ ?rs = _ =>
             apply (role_loop_off_mapping c s rs I) in H
         end; subst roles; reflexivity).
  rewrite role_loop_on_mapping, Hshow in H.
  destruct (forallb _ role_order); [|discriminate H].
  change (Ok (Spec.role_lines cs) = Ok roles) in H. congruence.
Qed.

(** ** Stages that cannot fail on well-shaped input *)

Lemma colours_mapping (p : dict) :
  colours_is_mapping p = true ->
  py_or (get_or p "colours" VNone) (VDict []) = VDict (colours_of p).
Proof.
  unfold colours_is_mapping, colours_of, py_or.
  destruct (get_or p "colours" VNone) as [| b | n | x | s | items | cs];
    cbn [truthy]; try reflexivity.
  - destruct b; [discriminate | reflexivity].
  - destruct (negb (n =? 0)%Z); [discriminate | reflexivity].
  - destruct (float_truth x); [discriminate | reflexivity].
  - destruct (negb (s =? "")); [discriminate | reflexivity].
  - destruct items; [reflexivity | discriminate].
  - destruct cs; reflexivity.
Qed.

Lemma theme_label_of_scalar (v : value) :
  scalar v = true -> exists theme, theme_label v = Ok theme.
Proof.
  unfold theme_label, theme_map_get.
  destruct v; cbn; intros H; try discriminate H; eauto.
Qed.

Lemma count_stage_of_sized (all_colours show_count : value) :
  sized all_colours || negb (truthy all_colours) = true ->
  exists count,
    (if truthy (py_or all_colours (VList [])) && truthy show_count
     then n <- py_len (py_or all_colours (VList [])) ;; Ok [Spec.count_line n]
     else Ok [])%res = Ok count.
Proof.
  unfold py_or. intros H.
  destruct (truthy all_colours) eqn:T.
  - rewrite T. destruct (truthy show_count); cbn [andb]; [|eauto].
    destruct all_colours; cbn in H; try discriminate H; cbn; eauto.
  - cbn. eauto.
Qed.

(** What a successful composition went through. *)
Lemma compose_ok_inv (p a : dict) (l : locals) :
  compose (VDict p) (VDict a) = Ok l ->
  exists theme roles count,
    theme_label (get_or p "theme_type" (VInt 0)) = Ok theme
    /\ for_each (role_step (py_or (get_or p "colours" VNone) (VDict []))
                           (get_or a "show_hex" (VBool true)))
                [] role_order = Ok roles
    /\ (if truthy (py_or (get_or p "all_colours" VNone) (VList []))
           && truthy (get_or a "show_count" (VBool true))
        then n <- py_len (py_or (get_or p "all_colours" VNone) (VList [])) ;;
             Ok [Spec.count_line n]
        else Ok [])%res = Ok count
    /\ l = {| theme_str := theme;
              urgency := get_or a "urgency" (VStr "normal");
              timeout := get_or a "timeout" (VInt 10000);
              app_name := get_or a "app_name" (VStr "Tinct");
              icon := get_or a "icon" (VStr "preferences-desktop-theme");
              title := Spec.title_for a theme;
              body_lines := roles ++ count ++ Spec.message_lines a;
              body := Text.join Text.nl (roles ++ count ++ Spec.message_lines a);
              cmd := Spec.command
                       (get_or a "app_name" (VStr "Tinct"))
                       (get_or a "icon" (VStr "preferences-desktop-theme"))
                       (get_or a "urgency" (VStr "normal"))
                       (get_or a "timeout" (VInt 10000))
                       (Spec.title_for a theme)
                       (Text.join Text.nl
                          (roles ++ count ++ Spec.message_lines a)) |}.
Proof.
  rewrite compose_stages. cbv zeta. intros H.
  destruct (theme_label _) as [theme|e]; cbn [res_bind] in H; [|discriminate H].
  destruct (for_each _ _ _) as [roles|e]; cbn [res_bind] in H; [|discriminate H].
  match type of H with
  | res_bind ?c _ = _ => destruct c as [count|e] eqn:Hc
  end; cbn [res_bind] in H; [|discriminate H].
  injection H as <-. exists theme, roles, count. auto.
Qed.

(** The count stage adds one line or none. *)
Lemma count_stage_shape (all_colors show_count : value) (count : list string) :
  (if truthy all_colors && truthy show_count
   then n <- py_len all_colors ;; Ok [Spec.count_line n]
   else Ok [])%res = Ok count ->
  count = [] \/ exists n, count = [Spec.count_line n].
Proof.
  destruct (truthy all_colors && truthy show_count).
  - destruct (py_len all_colors) as [n|e]; cbn; intros E; [|discriminate E].
    injection E as <-. right. now exists n.
  - intros E. injection E as <-. now left.
Qed.

(** The role lines do not depend on the order of the mapping's entries. *)
Lemma role_is_record_ext (cs cs' : dict) (role : string * string) :
  (forall k, lookup k cs = lookup k cs') ->
  role_is_record cs role = role_is_record cs' role.
Proof. intros E. unfold role_is_record. now rewrite E. Qed.

Lemma role_lines_of_ext (cs cs' : dict) (roles : list (string * string)) :
  (forall k, lookup k cs = lookup k cs') ->
  Spec.role_lines_of roles cs = Spec.role_lines_of roles cs'.
Proof.
  intros E. unfold Spec.role_lines_of. apply flat_map_ext. intros role.
  unfold Spec.shown_hex. now rewrite E.
Qed.

Lemma role_loop_ext (cs cs' : dict) (show_hex : value)
      (roles : list (string * string)) (acc : list string) :
  (forall k, lookup k cs = lookup k cs') ->
  for_each (role_step (VDict cs) show_hex) acc roles
  = for_each (role_step (VDict cs') show_hex) acc roles.
Proof.
  intros E. rewrite !role_loop_on_mapping.
  rewrite (role_lines_of_ext cs cs' roles E).
  replace (forallb (role_is_record cs) roles)
    with (forallb (role_is_record cs') roles); [reflexivity|].
  induction roles as [|role roles IH]; cbn; [reflexivity|].
  now rewrite IH, (role_is_record_ext cs cs' role E).
Qed.

(** [compose] reads three keys of the palette and nothing else. *)
Lemma compose_ext (p p' a : dict) :
  get_or p "theme_type" (VInt 0) = get_or p' "theme_type" (VInt 0) ->
  get_or p "all_colours" VNone = get_or p' "all_colours" VNone ->
  (forall acc roles,
      for_each (role_step (py_or (get_or p "colours" VNone) (VDict []))
                          (get_or a "show_hex" (VBool true))) acc roles
      = for_each (role_step (py_or (get_or p' "colours" VNone) (VDict []))
                            (get_or a "show_hex" (VBool true))) acc roles) ->
  compose (VDict p) (VDict a) = compose (VDict p') (VDict a).
Proof.
  intros Ht Ha Hloop. rewrite !compose_stages. cbv zeta.
  now rewrite Ht, Ha, Hloop.
Qed.

Lemma get_or_store_same (k : string) (v default : value) (d : dict) :
  get_or (store k v d) k default = v.
Proof. unfold get_or. now rewrite lookup_store_same. Qed.

Lemma get_or_store_other (k k' : string) (v default : value) (d : dict) :
  k' <> k -> get_or (store k v d) k' default = get_or d k' default.
Proof. intros Hne. unfold get_or. now rewrite lookup_store_other. Qed.

(** ** Commands *)

Lemma py_join_of_parts (sep : string) (parts : list value) (argv : list string) :
  py_join_parts parts = Ok argv -> py_join sep parts = Ok (Text.join sep argv).
Proof. unfold py_join. now intros ->. Qed.

Lemma exec_args_are_parts (cmd : list value) (argv : list string) :
  exec_args cmd = Ok argv -> py_join_parts cmd = Ok argv.
Proof.
  revert argv. induction cmd as [|v cmd IH]; intros argv H.
  - exact H.
  - destruct v; try discriminate H. cbn in H |- *.
    destruct (negb (fs_encodes s) || has_nul s); [discriminate H|].
    destruct (exec_args cmd) as [rest|e]; [|discriminate H].
    now rewrite (IH rest eq_refl).
Qed.

(** What the operating system is handed is the command itself, and it
    is handed over exactly when every argument is text that can be
    encoded and has no NUL in it. *)
Lemma exec_args_iff (cmd : list value) (argv : list string) :
  exec_args cmd = Ok argv
  <-> cmd = map VStr argv
      /\ forallb fs_encodes argv = true
      /\ existsb has_nul argv = false.
Proof.
  revert argv. induction cmd as [|v cmd IH]; intros argv.
  - split.
    + intros H. injection H as <-. now repeat split.
    + intros (H & _ & _). destruct argv; [reflexivity | discriminate H].
  - split.
    + intros H. destruct v; try discriminate H. cbn in H.
      destruct (fs_encodes s) eqn:F; cbn in H; [|discriminate H].
      destruct (has_nul s) eqn:N; [discriminate H|].
      destruct (exec_args cmd) as [rest|e]; [|discriminate H].
      injection H as <-. destruct (proj1 (IH rest) eq_refl) as (-> & Hf & Hn).
      cbn. now rewrite F, N.
    + intros (H & Hf & Hn). destruct argv as [|s rest]; [discriminate H|].
      injection H as -> ->. cbn in Hf, Hn |- *.
      apply andb_true_iff in Hf as [F Hf].
      apply orb_false_iff in Hn as [N Hn].
      rewrite F, N. cbn.
      now rewrite (proj2 (IH rest) (conj eq_refl (conj Hf Hn))).
Qed.

(** Text without a lone surrogate and without NUL is handed over. *)
Lemma exec_args_text (argv : list string) :
  existsb Text.has_surrogate argv = false ->
  existsb has_nul argv = false ->
  exec_args (map VStr argv) = Ok argv.
Proof.
  intros Hs Hn. apply exec_args_iff. split; [reflexivity|]. split; [|exact Hn].
  clear Hn. induction argv as [|s rest IH]; [reflexivity|].
  cbn in Hs |- *. apply orb_false_iff in Hs as [S Hs].
  now rewrite (fs_encodes_text s S), (IH Hs).
Qed.

(** ** Plain text *)

Lemma ascii_only_app (s t : string) :
  Text.ascii_only (s +++ t) = Text.ascii_only s && Text.ascii_only t.
Proof.
  induction s as [|c s IH]; [reflexivity|].
  cbn [String.append Text.ascii_only]. now rewrite IH, andb_assoc.
Qed.

Lemma ascii_only_no_surrogate (s : string) :
  Text.ascii_only s = true -> Text.has_surrogate s = false.
Proof.
  unfold Text.has_surrogate.
  induction s as [|c s IH]; [reflexivity|].
  cbn [Text.ascii_only Text.code_points]. intros H.
  apply andb_true_iff in H as [Hc Hs]. apply N.ltb_lt in Hc.
  replace (N_of_ascii c <? 192)%N with true by (symmetry; apply N.ltb_lt; lia).
  cbn [existsb]. rewrite (IH Hs), orb_false_r.
  unfold Text.is_surrogate.
  replace (55296 <=? N_of_ascii c)%N with false
    by (symmetry; apply N.leb_gt; lia).
  reflexivity.
Qed.

Lemma digits_are_ascii (d : Decimal.uint) :
  Text.ascii_only (NilEmpty.string_of_uint d) = true.
Proof. induction d; cbn; auto. Qed.

(** [str(n)] for an [int] is plain text. *)
Lemma of_Z_no_surrogate (prefix : string) (n : Z) :
  Text.ascii_only prefix = true ->
  Text.has_surrogate (prefix +++ Text.of_Z n) = false.
Proof.
  intros Hp. apply ascii_only_no_surrogate. rewrite ascii_only_app, Hp.
  unfold Text.of_Z. destruct (Z.to_int n) as [d|d]; cbn;
    apply digits_are_ascii.
Qed.

(** ** Printing *)

Lemma print_text (line : string) :
  Text.has_surrogate line = false -> print line = ([Stdout line], Return tt).
Proof. intros H. unfold print. now rewrite (stdout_encodes_text line H). Qed.

Lemma print_is_print_lines (line : string) : print line = print_lines [line].
Proof.
  unfold print, print_lines. cbn [printed forallb map].
  destruct (stdout_encodes line); reflexivity.
Qed.

Lemma printed_all (lines : list string) :
  forallb stdout_encodes lines = true -> printed lines = lines.
Proof.
  induction lines as [|line rest IH]; [reflexivity|]. cbn.
  destruct (stdout_encodes line); [|discriminate]. intros H. now rewrite IH.
Qed.

(** A command after a run of [print] calls. *)
Lemma print_lines_then {A} (lines : list string) (k : io A) :
  io_bind (print_lines lines) (fun _ => k)
  = if forallb stdout_encodes lines
    then (map Stdout lines ++ fst k, snd k)
    else (map Stdout (printed lines), Raise ValueError).
Proof.
  unfold print_lines, io_bind.
  destruct (forallb stdout_encodes lines) eqn:E; [|reflexivity].
  rewrite (printed_all lines E). now destruct k.
Qed.

Lemma printed_app (lines lines' : list string) :
  printed (lines ++ lines')
  = if forallb stdout_encodes lines then lines ++ printed lines'
    else printed lines.
Proof.
  induction lines as [|line rest IH]; [reflexivity|]. cbn.
  destruct (stdout_encodes line); cbn; [|reflexivity].
  rewrite IH. now destruct (forallb stdout_encodes rest).
Qed.

Lemma print_lines_app {A} (lines lines' : list string) (k : io A) :
  io_bind (print_lines lines) (fun _ => io_bind (print_lines lines') (fun _ => k))
  = io_bind (print_lines (lines ++ lines')) (fun _ => k).
Proof.
  rewrite !print_lines_then, forallb_app, printed_app.
  destruct (forallb stdout_encodes lines) eqn:E; cbn [andb]; [|reflexivity].
  destruct (forallb stdout_encodes lines') eqn:E'; cbn [fst snd].
  - now rewrite map_app, <- app_assoc.
  - now rewrite map_app.
Qed.

Lemma print_lines_end (lines : list string) :
  io_bind (print_lines lines) (fun _ => io_ret tt) = print_lines lines.
Proof.
  rewrite print_lines_then. unfold print_lines.
  destruct (forallb stdout_encodes lines) eqn:E; [|reflexivity].
  cbn. now rewrite app_nil_r, (printed_all lines E).
Qed.


(** ** Well-shaped input goes through *)

Lemma compose_on_shaped (p a : dict) :
  theme_type_ok p = true ->
  colours_is_mapping p = true ->
  all_colours_ok p = true ->
  if roles_are_records (colours_of p)
  then exists l, compose (VDict p) (VDict a) = Ok l
  else compose (VDict p) (VDict a) = Err AttributeError.
Proof.
  intros Htheme Hmap Hall.
  rewrite compose_stages. cbv zeta.
  destruct (theme_label_of_scalar _ Htheme) as [theme ->]. cbn [res_bind].
  rewrite (colours_mapping p Hmap), role_loop_on_mapping.
  fold (roles_are_records (colours_of p)).
  destruct (roles_are_records (colours_of p)); cbn [res_bind]; [|reflexivity].
  destruct (count_stage_of_sized (get_or p "all_colours" VNone)
              (get_or a "show_count" (VBool true)) Hall) as [count ->].
  cbn [res_bind]. eauto.
Qed.

Lemma palette_ok_composes (p a : dict) :
  palette_ok p = true -> exists l, compose (VDict p) (VDict a) = Ok l.
Proof.
  unfold palette_ok. intros H.
  apply andb_prop in H as [H Hall]. apply andb_prop in H as [H Hrec].
  apply andb_prop in H as [Htheme Hmap].
  pose proof (compose_on_shaped p a Htheme Hmap Hall) as C.
  now rewrite Hrec in C.
Qed.

(** With the unconverted settings being strings, the command is all text. *)
Lemma command_is_text (a : dict) (theme body : string) :
  config_ok a = true ->
  exists argv,
    py_join_parts
      (Spec.command (get_or a "app_name" (VStr "Tinct"))
                    (get_or a "icon" (VStr "preferences-desktop-theme"))
                    (get_or a "urgency" (VStr "normal"))
                    (get_or a "timeout" (VInt 10000))
                    (Spec.title_for a theme) body) = Ok argv.
Proof.
  unfold config_ok, Spec.title_for. intros H.
  apply andb_prop in H as [H Ht]. apply andb_prop in H as [H Hi].
  apply andb_prop in H as [Hu Ha].
  destruct (get_or a "urgency" _); try discriminate Hu.
  destruct (get_or a "app_name" _) as [| | | |app| |]; try discriminate Ha.
  destruct (get_or a "icon" _) as [| | | |ic| |]; try discriminate Hi.
  unfold Spec.command.
  assert (Htitle : exists t,
             match lookup "title" a with
             | Some t => t
             | None =>
                 if truthy (get_or a "title_prefix" (VStr ""))
                 then VStr (py_str (get_or a "title_prefix" (VStr ""))
                            +++ " Tinct Colour Palette (" +++ theme +++ " Theme)")
                 else VStr ("Tinct Colour Palette (" +++ theme +++ " Theme)")
             end = VStr t).
  { destruct (lookup "title" a) as [t|].
    - destruct t; try discriminate Ht. eauto.
    - destruct (truthy _); eauto. }
  destruct Htitle as [t ->].
  destruct (truthy (VStr app)), (truthy (VStr ic)); cbn; eauto.
Qed.

Lemma validate_palette_object (p : dict) :
  validate_palette (VDict p) =
  if has_colour_field p then ([], Return true)
  else ([Stderr "Error: Invalid palette - missing 'colours' or 'all_colours' field"],
        Return false).
Proof.
  unfold validate_palette, has_colour_field.
  destruct (lookup "colours" p), (lookup "all_colours" p); reflexivity.
Qed.

(** ** The loop, whatever [colours] is *)

Lemma role_step_adds_at_most_one (colors show_hex : value)
      (acc out : list string) (role : string * string) :
  role_step colors show_hex acc role = Ok out ->
  out = acc
  \/ (truthy show_hex = true
      /\ exists hex, hex <> ""
                     /\ out = acc ++ ["  " +++ snd role +++ ": " +++ hex]).
Proof.
  destruct role as [key label]. unfold role_step. cbn [snd].
  destruct (py_in key colors) as [[|]|e]; cbn [res_bind];
    try discriminate; [|intros E; left; congruence].
  destruct (py_item colors key) as [data|e]; cbn [res_bind]; [|discriminate].
  destruct (py_get data "hex" (VStr "")) as [hex|e]; cbn [res_bind];
    [|discriminate].
  destruct (py_upper hex) as [h|e]; cbn [res_bind]; [|discriminate].
  destruct (String.eqb_spec h "") as [->|Hne]; cbn [negb andb].
  - intros E. left. congruence.
  - destruct (truthy show_hex); intros E; [right | left; congruence].
    split; [reflexivity|]. exists h. split; [exact Hne | congruence].
Qed.

Lemma role_loop_adds (colors show_hex : value) (roles : list (string * string)) :
  forall acc out,
    for_each (role_step colors show_hex) acc roles = Ok out ->
    exists added,
      out = acc ++ added
      /\ List.length added <= List.length roles
      /\ Forall (fun line => line <> "") added
      /\ (truthy show_hex = false -> added = []).
Proof.
  induction roles as [|role roles IH]; intros acc out H.
  - cbn in H. exists []. rewrite app_nil_r.
    split; [congruence|]. split; [reflexivity|]. split; [constructor | reflexivity].
  - cbn [for_each] in H.
    destruct (role_step colors show_hex acc role) as [mid|e] eqn:S;
      cbn [res_bind] in H; [|discriminate H].
    destruct (IH mid out H) as (added & -> & Hlen & Hne & Hoff).
    destruct (role_step_adds_at_most_one _ _ _ _ _ S)
      as [-> | (Hon & hex & Hhex & ->)].
    + exists added. cbn [List.length].
      split; [reflexivity|]. split; [lia|]. split; assumption.
    + exists (("  " +++ snd role +++ ": " +++ hex) :: added).
      rewrite <- app_assoc. cbn [app List.length].
      split; [reflexivity|]. split; [lia|].
      split; [constructor; [discriminate | exact Hne] | congruence].
Qed.

(** The lines of a composed body: role lines when [show_hex] is on, then
    at most one count line, then the message line. *)
Lemma compose_body_shape (p a : dict) (l : locals) :
  compose (VDict p) (VDict a) = Ok l ->
  exists count,
    body_lines l
    = (if truthy (get_or a "show_hex" (VBool true))
       then Spec.role_lines (colours_of p) else [])
        ++ count ++ Spec.message_lines a
    /\ (count = [] \/ exists n, count = [Spec.count_line n])
    /\ body l = Text.join Text.nl (body_lines l).
Proof.
  intros H.
  destruct (compose_ok_inv p a l H)
    as (theme & roles & count & _ & Hloop & Hcount & El).
  exists count. rewrite El. cbn [body_lines body].
  split; [|split; [exact (count_stage_shape _ _ _ Hcount) | reflexivity]].
  destruct (truthy (get_or a "show_hex" (VBool true))) eqn:Hshow.
  - now rewrite (role_loop_result p _ _ Hshow Hloop).
  - destruct (role_loop_adds _ _ _ _ _ Hloop) as (added & -> & _ & _ & Hoff).
    now rewrite (Hoff Hshow).
Qed.

(** The loop on any value: it gets through exactly when every role can
    be read, and off a mapping it then adds nothing. *)
Lemma role_loop_any (colors show_hex : value) (roles : list (string * string)) :
  forall acc,
    for_each (role_step colors show_hex) acc roles =
    if forallb (role_readable colors) roles
    then Ok (acc ++ match colors with
                    | VDict cs => if truthy show_hex
                                  then Spec.role_lines_of roles cs else []
                    | _ => []
                    end)
    else Err match colors with
             | VDict _ => AttributeError
             | _ => TypeError
             end.
Proof.
  destruct colors as [| b | n | x | s | items | cs];
    try (induction roles as [|[key label] roles IH]; intros acc;
         [cbn; now rewrite app_nil_r | reflexivity]).
  - induction roles as [|[key label] roles IH]; intros acc;
      [cbn; now rewrite app_nil_r|].
    cbn [for_each forallb role_readable fst]. unfold role_step at 1.
    cbn [py_in res_bind].
    destruct (Text.contains key s); cbn [negb andb res_bind py_item];
      [reflexivity | apply IH].
  - induction roles as [|[key label] roles IH]; intros acc;
      [cbn; now rewrite app_nil_r|].
    cbn [for_each forallb role_readable fst]. unfold role_step at 1.
    cbn [py_in res_bind].
    destruct (existsb _ items); cbn [negb andb res_bind py_item];
      [reflexivity | apply IH].
  - intros acc. apply role_loop_on_mapping.
Qed.

Lemma theme_label_of_container (v : value) :
  scalar v = false -> theme_label v = Err TypeError.
Proof. destruct v; try discriminate; reflexivity. Qed.

Lemma count_stage_any (all_colors show_count : value) :
  if negb (truthy all_colors && truthy show_count) || sized all_colors
  then exists count,
         (if truthy all_colors && truthy show_count
          then n <- py_len all_colors ;; Ok [Spec.count_line n]
          else Ok [])%res = Ok count
  else (if truthy all_colors && truthy show_count
        then n <- py_len all_colors ;; Ok [Spec.count_line n]
        else Ok [])%res = Err TypeError.
Proof.
  destruct (truthy all_colors && truthy show_count); cbn [negb orb];
    [|eauto].
  destruct all_colors; cbn; eauto.
Qed.

(** When the composer gets through, and what it raises when it does
    not. *)
Lemma compose_outcome (p a : dict) :
  if composable p a
  then exists l, compose (VDict p) (VDict a) = Ok l
  else compose (VDict p) (VDict a)
       = Err (if theme_type_ok p && negb (roles_are_records (colours_of p))
              then AttributeError else TypeError).
Proof.
  unfold composable, theme_type_ok, roles_are_records, colours_of.
  rewrite compose_stages. cbv zeta.
  destruct (scalar (get_or p "theme_type" (VInt 0))) eqn:Htheme;
    cbn [andb].
  2: { now rewrite (theme_label_of_container _ Htheme). }
  destruct (theme_label_of_scalar _ Htheme) as [theme ->]. cbn [res_bind].
  rewrite role_loop_any.
  pose proof (count_stage_any
                (py_or (get_or p "all_colours" VNone) (VList []))
                (get_or a "show_count" (VBool true))) as Hcount.
  destruct (py_or (get_or p "colours" VNone) (VDict []))
    as [| b | n | x | s | items | cs];
    try reflexivity;
    match goal with
    | |- context [forallb ?f role_order] =>
        destruct (forallb f role_order) eqn:Hroles
    end;
    cbn [res_bind andb negb];
    try reflexivity;
    try (change (forallb (role_is_record cs) role_order) with
           (forallb (role_readable (VDict cs)) role_order);
         rewrite Hroles; cbn [negb]);
    try reflexivity;
    (destruct (negb _ || sized _);
     [destruct Hcount as [count ->]; cbn [res_bind]; eauto
     | rewrite Hcount; reflexivity]).
Qed.

(** ** Reading events off lists *)

Lemma spawns_of_app (es es' : list event) :
  spawns_of (es ++ es') = spawns_of es ++ spawns_of es'.
Proof. apply flat_map_app. Qed.

Lemma spawns_of_stdout (lines : list string) : spawns_of (map Stdout lines) = [].
Proof. induction lines; [reflexivity | exact IHlines]. Qed.

Lemma reads_stdin_stdout (lines : list string) :
  reads_stdin (map Stdout lines) = false.
Proof. induction lines; [reflexivity | exact IHlines]. Qed.

Lemma reads_stdin_app (es es' : list event) :
  reads_stdin (es ++ es') = reads_stdin es || reads_stdin es'.
Proof. apply existsb_app. Qed.

(** ** The two commands in one piece *)

Lemma lift_ok_bind {A B} (a : A) (k : A -> io B) :
  io_bind (lift (Ok a)) k = k a.
Proof. unfold lift, io_bind. now destruct (k a). Qed.

Lemma io_ret_bind {A B} (a : A) (k : A -> io B) :
  io_bind (io_ret a) k = k a.
Proof. apply (lift_ok_bind a k). Qed.

Lemma print_lines_join (lines lines' : list string) :
  io_bind (print_lines lines) (fun _ => print_lines lines')
  = print_lines (lines ++ lines').
Proof.
  rewrite <- (print_lines_end lines'), print_lines_app.
  now rewrite !print_lines_end.
Qed.

(** The events and the end of a command that follows a run of [print]
    calls. *)
Lemma print_lines_then_events {A} (lines : list string) (k : io A) :
  fst (io_bind (print_lines lines) (fun _ => k))
  = map Stdout (printed lines)
    ++ (if forallb stdout_encodes lines then fst k else []).
Proof.
  rewrite print_lines_then.
  destruct (forallb stdout_encodes lines) eqn:E; cbn [fst].
  - now rewrite (printed_all lines E).
  - now rewrite app_nil_r.
Qed.

Lemma print_lines_then_outcome {A} (lines : list string) (k : io A) :
  snd (io_bind (print_lines lines) (fun _ => k))
  = if forallb stdout_encodes lines then snd k else Raise ValueError.
Proof.
  rewrite print_lines_then. now destruct (forallb stdout_encodes lines).
Qed.

Lemma send_notification_stages (notifier : list string -> run_result)
      (palette : value) (a : dict) (dry_run : value) :
  send_notification notifier palette (VDict a) dry_run =
  match compose palette (VDict a) with
  | Err e => ([], Raise e)
  | Ok l =>
      if truthy dry_run then
        match py_join_parts (cmd l) with
        | Err e =>
            io_bind (print_lines [ "=== DRY-RUN MODE ===";
                                   "Would send notification with command:" ])
                    (fun _ => ([], Raise e))
        | Ok argv => print_lines (Spec.dry_run_block l argv)
        end
      else
        match exec_args (cmd l) with
        | Err e => ([], Raise e)
        | Ok argv =>
            let (es, o) := live_report (get_or a "verbose" (VBool false))
                                       l argv (notifier argv) in
            (Spawn argv :: es, o)
        end
  end.
Proof.
  unfold send_notification.
  destruct (compose palette (VDict a)) as [l|e]; [|reflexivity].
  rewrite lift_ok_bind.
  destruct (truthy dry_run).
  - unfold py_join. destruct (py_join_parts (cmd l)) as [argv|e].
    + rewrite lift_ok_bind, !print_is_print_lines, !print_lines_join.
      reflexivity.
    + rewrite !print_is_print_lines.
      change (lift (@Err string e)) with (@nil event, @Raise string e).
      cbn [io_bind]. now rewrite print_lines_app.
  - unfold subprocess_run.
    destruct (exec_args (cmd l)) as [argv|e] eqn:E; [|reflexivity].
    rewrite (py_join_of_parts " " _ _ (exec_args_are_parts _ _ E)).
    cbn [py_get]. rewrite !lift_ok_bind.
    unfold io_bind at 1.
    destruct (notifier argv) as [| e captured | | e]; cbn [live_report].
    + unfold report_lines, colours_shown.
      destruct (truthy (get_or a "verbose" (VBool false))).
      * rewrite !print_is_print_lines, !print_lines_join. reflexivity.
      * rewrite print_is_print_lines, print_lines_end. reflexivity.
    + cbn. now destruct (captured =? "").
    + reflexivity.
    + reflexivity.
Qed.

Lemma main_stages (argv : list string) (notifier : list string -> run_result)
      (p : dict) :
  plugin_info_requested argv = false ->
  has_colour_field p = true ->
  main argv (Parsed (VDict p)) notifier =
  match get_or p "plugin_args" (VDict []) with
  | VDict a =>
      let dry_run := get_or p "dry_run" (VBool false) in
      let (es, o) :=
        io_bind (if truthy (py_or (get_or a "verbose" (VBool false)) dry_run)
                 then print_lines (Spec.banner (VDict a) dry_run)
                 else io_ret tt)
                (fun _ => send_notification notifier (VDict p) (VDict a)
                                            dry_run) in
      (ReadStdin :: es, o)
  | _ => ([ReadStdin], Raise AttributeError)
  end.
Proof.
  intros Hargv Hvalid. unfold main. rewrite Hargv.
  unfold io_bind at 1. rewrite io_ret_bind.
  rewrite validate_palette_object, Hvalid.
  change (@nil event, Return true) with (io_ret true).
  rewrite io_ret_bind. cbn [negb py_get]. rewrite !lift_ok_bind.
  destruct (get_or p "plugin_args" (VDict [])) as [| | | | | |a];
    try reflexivity.
  cbn [py_get]. rewrite lift_ok_bind. cbv zeta.
  destruct (truthy (py_or _ _)).
  - change (py_item PLUGIN_INFO "version") with (Ok (VStr "1.0.1")).
    rewrite lift_ok_bind, !print_is_print_lines, !print_lines_join.
    reflexivity.
  - reflexivity.
Qed.

(** The descriptor is plain text and always goes out. *)
Lemma main_plugin_info (argv : list string) (stdin : stdin_result)
      (notifier : list string -> run_result) :
  plugin_info_requested argv = true ->
  main argv stdin notifier
  = ([Stdout (json_dumps_indent2 PLUGIN_INFO)], SysExit 0).
Proof.
  intros H. unfold main, show_plugin_info. rewrite H.
  now rewrite print_text by (vm_compute; reflexivity).
Qed.

(** The events of a command that follows the banner. *)
Lemma after_banner_events {A} (shown : bool) (lines : list string) (k : io A) :
  fst (io_bind (if shown then print_lines lines else io_ret tt) (fun _ => k))
  = (if shown then map Stdout (printed lines) else [])
    ++ (if negb shown || forallb stdout_encodes lines then fst k else []).
Proof.
  destruct shown; [apply print_lines_then_events|].
  cbn. now destruct k.
Qed.

Lemma after_banner_outcome {A} (shown : bool) (lines : list string) (k : io A) :
  snd (io_bind (if shown then print_lines lines else io_ret tt) (fun _ => k))
  = if negb shown || forallb stdout_encodes lines then snd k
    else Raise ValueError.
Proof.
  destruct shown; [apply print_lines_then_outcome|].
  cbn. now destruct k.
Qed.

Lemma spawns_after_banner (lines : list string) (es : list event) :
  spawns_of (ReadStdin :: map Stdout lines ++ es) = spawns_of es.
Proof.
  change (spawns_of (map Stdout lines ++ es) = spawns_of es).
  now rewrite spawns_of_app, spawns_of_stdout.
Qed.

Lemma reads_after_banner (lines : list string) (es : list event) :
  reads_stdin (map Stdout lines ++ es) = reads_stdin es.
Proof. now rewrite reads_stdin_app, reads_stdin_stdout. Qed.

(** A run on an accepted palette with an object for [plugin_args]: the
    banner as far as it can be printed, then [send_notification] when
    the banner got through. *)
Lemma main_run (argv : list string) (notifier : list string -> run_result)
      (p a : dict) :
  plugin_info_requested argv = false ->
  has_colour_field p = true ->
  get_or p "plugin_args" (VDict []) = VDict a ->
  let dry_run := get_or p "dry_run" (VBool false) in
  let shown := truthy (py_or (get_or a "verbose" (VBool false)) dry_run) in
  let lines := Spec.banner (VDict a) dry_run in
  let through := negb shown || forallb stdout_encodes lines in
  let send := send_notification notifier (VDict p) (VDict a) dry_run in
  main argv (Parsed (VDict p)) notifier
  = (ReadStdin :: map Stdout (if shown then printed lines else [])
                  ++ (if through then fst send else []),
     if through then snd send else Raise ValueError).
Proof.
  intros Hargv Hvalid Hargs. cbv zeta.
  rewrite (main_stages argv notifier p Hargv Hvalid), Hargs. cbv zeta.
  replace (map Stdout
             (if truthy (py_or (get_or a "verbose" (VBool false))
                               (get_or p "dry_run" (VBool false)))
              then printed (Spec.banner (VDict a)
                                        (get_or p "dry_run" (VBool false)))
              else []))
    with (if truthy (py_or (get_or a "verbose" (VBool false))
                           (get_or p "dry_run" (VBool false)))
          then map Stdout (printed (Spec.banner (VDict a)
                                      (get_or p "dry_run" (VBool false))))
          else []) by now destruct (truthy _).
  rewrite <- after_banner_events, <- after_banner_outcome.
  now destruct (io_bind _ _).
Qed.

(** What follows the request for a process neither reads nor asks for
    another. *)
Lemma live_report_quiet (verbose : value) (l : locals) (argv : list string)
      (r : run_result) :
  reads_stdin (fst (live_report verbose l argv r)) = false
  /\ spawns_of (fst (live_report verbose l argv r)) = [].
Proof.
  destruct r as [| e captured | | e]; cbn [live_report].
  - unfold print_lines. cbn [fst].
    now rewrite reads_stdin_stdout, spawns_of_stdout.
  - destruct (captured =? ""); now split.
  - now split.
  - now split.
Qed.

Lemma print_lines_all (lines : list string) :
  forallb stdout_encodes lines = true ->
  print_lines lines = (map Stdout lines, Return tt).
Proof. intros E. unfold print_lines. now rewrite E, (printed_all lines E). Qed.

Lemma print_lines_text (lines : list string) :
  existsb Text.has_surrogate lines = false ->
  print_lines lines = (map Stdout lines, Return tt).
Proof.
  intros H.
  assert (E : forallb stdout_encodes lines = true).
  { induction lines as [|line rest IH]; [reflexivity|].
    cbn in H |- *. apply orb_false_iff in H as [Hl Hr].
    now rewrite (stdout_encodes_text line Hl), (IH Hr). }
  unfold print_lines. now rewrite E, (printed_all lines E).
Qed.

(** A live run of an accepted palette whose command can be handed
    over: the banner when it is verbose, then the request and what
    follows it. *)
Lemma live_run_stages (argv : list string)
      (notifier : list string -> run_result)
      (p a : dict) (l : locals) (command : list string) :
  plugin_info_requested argv = false ->
  has_colour_field p = true ->
  get_or p "plugin_args" (VDict []) = VDict a ->
  truthy (get_or p "dry_run" (VBool false)) = false ->
  compose (VDict p) (VDict a) = Ok l ->
  exec_args (cmd l) = Ok command ->
  main argv (Parsed (VDict p)) notifier =
  let verbose := get_or a "verbose" (VBool false) in
  let (es, o) :=
    io_bind (if truthy verbose
             then print_lines (Spec.banner (VDict a)
                                           (get_or p "dry_run" (VBool false)))
             else io_ret tt)
            (fun _ => let (es, o) := live_report verbose l command
                                                 (notifier command) in
                      (Spawn command :: es, o)) in
  (ReadStdin :: es, o).
Proof.
  intros Hargv Hvalid Hargs Hlive Hl Hcmd.
  rewrite (main_stages argv notifier p Hargv Hvalid), Hargs. cbv zeta.
  rewrite send_notification_stages, Hl, Hlive, Hcmd.
  replace (truthy (py_or (get_or a "verbose" (VBool false))
                         (get_or p "dry_run" (VBool false))))
    with (truthy (get_or a "verbose" (VBool false))); [reflexivity|].
  unfold py_or.
  destruct (truthy (get_or a "verbose" (VBool false))) eqn:V;
    [now rewrite V | now rewrite Hlive].
Qed.

Lemma quiet_live_run (argv : list string)
      (notifier : list string -> run_result)
      (p a : dict) (l : locals) (command : list string) :
  plugin_info_requested argv = false ->
  has_colour_field p = true ->
  get_or p "plugin_args" (VDict []) = VDict a ->
  truthy (get_or p "dry_run" (VBool false)) = false ->
  truthy (get_or a "verbose" (VBool false)) = false ->
  compose (VDict p) (VDict a) = Ok l ->
  exec_args (cmd l) = Ok command ->
  main argv (Parsed (VDict p)) notifier =
  match notifier command with
  | Completed =>
      ([ReadStdin; Spawn command; Stdout "✓ Notification sent successfully"],
       Return tt)
  | r => let (es, o) := live_report (VBool false) l command r in
         (ReadStdin :: Spawn command :: es, o)
  end.
Proof.
  intros Hargv Hvalid Hargs Hlive Hquiet Hl Hcmd.
  rewrite (live_run_stages argv notifier p a l command
             Hargv Hvalid Hargs Hlive Hl Hcmd).
  cbv zeta. rewrite Hquiet, io_ret_bind.
  destruct (notifier command) as [| e captured | | e]; cbn [live_report].
  - unfold report_lines. rewrite Hquiet.
    now rewrite print_lines_text by reflexivity.
  - now destruct (captured =? "").
  - reflexivity.
  - reflexivity.
Qed.


(** A dry run prints and never asks for a process, whatever else goes
    wrong in it. *)
Lemma dry_run_spawns_nothing (notifier : list string -> run_result)
      (palette plugin_args dry_run : value) :
  truthy dry_run = true ->
  spawns_of (fst (send_notification notifier palette plugin_args dry_run)) = [].
Proof.
  intros Hdry. unfold send_notification.
  destruct (compose palette plugin_args) as [l|e]; [|reflexivity].
  rewrite lift_ok_bind, Hdry.
  unfold py_join. destruct (py_join_parts (cmd l)) as [argv|e].
  - rewrite lift_ok_bind, !print_is_print_lines, !print_lines_join.
    apply spawns_of_stdout.
  - rewrite !print_is_print_lines.
    change (lift (@Err string e)) with (@nil event, @Raise string e).
    cbn [io_bind]. rewrite print_lines_app, print_lines_then_events.
    rewrite spawns_of_app, spawns_of_stdout.
    now destruct (forallb _ _).
Qed.

End Facts.

(** * The claims *)

(** C5. For every integer [theme_type] the resolved theme label is "Auto"
    for 0, "Dark" for 1, "Light" for 2 and "Unknown" for every other
    integer. *)
Theorem theme_label_of_integer {RT : PyRuntime} (n : Z) :
  theme_label (VInt n) =
  Ok (if (n =? 0)%Z then "Auto"
      else if (n =? 1)%Z then "Dark"
      else if (n =? 2)%Z then "Light"
      else "Unknown").
Proof.
  unfold theme_label, theme_map_get.
  cbn [int_key res_bind theme_map find fst snd].
  rewrite (Z.eqb_sym 0 n), (Z.eqb_sym 1 n), (Z.eqb_sym 2 n).
  destruct (n =? 0)%Z; [reflexivity|].
  destruct (n =? 1)%Z; [reflexivity|].
  destruct (n =? 2)%Z; reflexivity.
Qed.

(** C1, as the code has it.  The composer is a function of the palette
    and the configuration, but not a total one.  On a palette object and
    a configuration object it succeeds exactly when [theme_type] is no
    list or object, every canonical role can be read ([colours], when
    it is not falsy, being an object that binds each canonical role it
    has to an object whose [hex] is absent or a string, or else a string
    or list in which no canonical role occurs), and [all_colours] has a
    length whenever it is counted.  When it succeeds, the body is the
    role lines, the count line and the message line, and a role that is
    absent, or whose record has no [hex] or an empty one, is left out.
    When it does not, it raises: [AttributeError] for a role bound to
    something that is no such record, [TypeError] otherwise. *)
Theorem compose_succeeds_iff_composable {RT : PyRuntime} (p a : dict) :
  ((exists l, compose (VDict p) (VDict a) = Ok l) <-> composable p a = true)
  /\ (composable p a = false ->
      compose (VDict p) (VDict a)
      = Err (if theme_type_ok p && negb (roles_are_records (colours_of p))
             then AttributeError else TypeError))
  /\ (forall l,
        compose (VDict p) (VDict a) = Ok l ->
        exists count,
          body_lines l
          = (if truthy (get_or a "show_hex" (VBool true))
             then Spec.role_lines (colours_of p) else [])
              ++ count ++ Spec.message_lines a
          /\ (count = [] \/ exists n, count = [Spec.count_line n])
          /\ body l = Text.join Text.nl (body_lines l))
  /\ Spec.role_lines (colours_of p)
     = flat_map (fun role => Spec.role_lines_of [role] (colours_of p)) role_order
  /\ (forall role,
        (lookup (fst role) (colours_of p) = None ->
         Spec.role_lines_of [role] (colours_of p) = [])
        /\ (forall record,
              lookup (fst role) (colours_of p) = Some (VDict record) ->
              get_or record "hex" (VStr "") = VStr "" ->
              Spec.role_lines_of [role] (colours_of p) = [])).
Proof.
  pose proof (compose_outcome p a) as C.
  split; [|split; [|split; [|split]]].
  - destruct (composable p a).
    + split; [reflexivity | intros _; exact C].
    + rewrite C. split; [intros [l E]; discriminate E | discriminate].
  - intros H. now rewrite H in C.
  - intros l Hl. exact (compose_body_shape p a l Hl).
  - unfold Spec.role_lines, Spec.role_lines_of. apply flat_map_ext.
    intros role. cbn [flat_map]. now rewrite app_nil_r.
  - intros [key label]. unfold Spec.role_lines_of, Spec.shown_hex, get_or.
    cbn [fst snd flat_map]. split.
    + now intros ->.
    + intros record ->.
      destruct (lookup "hex" record) as [hex|]; [|reflexivity].
      now intros ->.
Qed.

Lemma compose_total_on_sample :
  composable Sample.palette Sample.args = true
  /\ composable (RT := Reference.runtime)
                [("colours", VList [VInt 1; VStr "x"])] [] = true
  /\ (exists l, compose (VDict Sample.palette) (VDict Sample.args) = Ok l)
  /\ exists l, compose (RT := Reference.runtime)
                       (VDict [("colours", VList [VInt 1; VStr "x"])])
                       (VDict []) = Ok l.
Proof.
  do 2 (split; [reflexivity|]). split.
  - exact (proj2 (proj1 (compose_succeeds_iff_composable
                           Sample.palette Sample.args)) eq_refl).
  - exact (proj2 (proj1 (compose_succeeds_iff_composable
                           (RT := Reference.runtime)
                           [("colours", VList [VInt 1; VStr "x"])] []))
                 eq_refl).
Defined.

(** C1 as stated fails: a colour-role value that is not a record, and a
    [hex] that is not a string, make [compose] raise; so do a [theme_type]
    that is a list and an [all_colours] that is a number. *)
Lemma compose_raises_on_malformed_fields :
  compose (RT := Reference.runtime)
          (VDict [("colours", VDict [("background", VStr "#ffffff")])])
          (VDict []) = Err AttributeError
  /\ compose (RT := Reference.runtime)
             (VDict [("colours",
                      VDict [("background", VDict [("hex", VInt 16777215)])])])
             (VDict []) = Err AttributeError
  /\ compose (RT := Reference.runtime)
             (VDict [("colours", VDict []); ("theme_type", VList [])])
             (VDict []) = Err TypeError
  /\ compose (RT := Reference.runtime)
             (VDict [("colours", VDict []); ("all_colours", VInt 5)])
             (VDict []) = Err TypeError.
Proof. repeat split. Qed.

(** C3. An explicit [title] in the configuration is the title, verbatim,
    whether or not a [title_prefix] is there too; without one the title
    is "<title_prefix> Tinct Colour Palette (<ThemeLabel> Theme)" when the
    prefix is non-empty and "Tinct Colour Palette (<ThemeLabel> Theme)"
    when it is empty or absent. *)
Theorem title_resolution {RT : PyRuntime} (p a : dict) (l : locals) :
  compose (VDict p) (VDict a) = Ok l ->
  (forall t, lookup "title" a = Some t -> title l = t)
  /\ (lookup "title" a = None ->
      forall s, get_or a "title_prefix" (VStr "") = VStr s ->
        title l = VStr (if s =? "" then "Tinct Colour Palette ("
                                        +++ theme_str l +++ " Theme)"
                        else s +++ " Tinct Colour Palette ("
                             +++ theme_str l +++ " Theme)"))
  /\ (lookup "title" a = None ->
      title l =
      let prefix := get_or a "title_prefix" (VStr "") in
      VStr (if truthy prefix
            then py_str prefix +++ " Tinct Colour Palette ("
                 +++ theme_str l +++ " Theme)"
            else "Tinct Colour Palette (" +++ theme_str l +++ " Theme)"))
  /\ theme_label (get_or p "theme_type" (VInt 0)) = Ok (theme_str l).
Proof.
  intros H.
  destruct (compose_ok_inv p a l H) as (theme & roles & count & Ht & _ & _ & ->).
  cbn [title theme_str]. unfold Spec.title_for.
  split; [|split; [|split]].
  - now intros t ->.
  - intros -> s ->. cbn [truthy py_str].
    now destruct (s =? "").
  - intros ->. cbv zeta.
    now destruct (truthy (get_or a "title_prefix" (VStr ""))).
  - exact Ht.
Qed.

Lemma title_resolution_on_sample :
  exists l,
    compose (VDict Sample.palette) (VDict Sample.args) = Ok l
    /\ lookup "title_prefix" Sample.args = Some (VStr "Hi")
    /\ title l = VStr "New Theme!".
Proof.
  eexists. split; [reflexivity|]. split; [reflexivity|].
  apply (proj1 (title_resolution Sample.palette Sample.args _ eq_refl)).
  reflexivity.
Defined.

(** C4. With [show_hex] enabled the colour-role lines of the body are,
    role by role in the canonical order of [role_order] and whatever the
    order of the entries of [colours], the line
    "  <Role Label>: <HEX-UPPERCASE>" for a role that is in the palette
    with a non-empty hex value and nothing for a role that is absent or
    has an empty hex value; the count and message lines follow them. *)
Theorem role_lines_in_canonical_order {RT : PyRuntime}
        (p a : dict) (l : locals) :
  truthy (get_or a "show_hex" (VBool true)) = true ->
  compose (VDict p) (VDict a) = Ok l ->
  (exists count,
      body_lines l
      = Spec.role_lines (colours_of p) ++ count ++ Spec.message_lines a
      /\ (count = [] \/ exists n, count = [Spec.count_line n]))
  /\ body l = Text.join Text.nl (body_lines l)
  /\ Spec.role_lines (colours_of p)
     = flat_map (fun role => Spec.role_lines_of [role] (colours_of p)) role_order
  /\ (forall role,
        (lookup (fst role) (colours_of p) = None ->
         Spec.role_lines_of [role] (colours_of p) = [])
        /\ (forall record,
              lookup (fst role) (colours_of p) = Some (VDict record) ->
              get_or record "hex" (VStr "") = VStr "" ->
              Spec.role_lines_of [role] (colours_of p) = [])
        /\ (forall record h,
              lookup (fst role) (colours_of p) = Some (VDict record) ->
              lookup "hex" record = Some (VStr h) -> h <> "" ->
              Spec.role_lines_of [role] (colours_of p)
              = ["  " +++ snd role +++ ": " +++ str_upper h]))
  /\ (forall cs cs',
        get_or p "colours" VNone = VDict cs ->
        Permutation cs cs' -> NoDup (map fst cs) ->
        compose (VDict (store "colours" (VDict cs') p)) (VDict a) = Ok l).
Proof.
  intros Hshow H.
  destruct (compose_ok_inv p a l H)
    as (theme & roles & count & Ht & Hloop & Hcount & El).
  apply (role_loop_result p _ _ Hshow) in Hloop. subst roles.
  split; [|split; [|split; [|split]]].
  - exists count. rewrite El. split; [reflexivity|].
    exact (count_stage_shape _ _ _ Hcount).
  - now rewrite El.
  - unfold Spec.role_lines, Spec.role_lines_of. apply flat_map_ext.
    intros role. cbn [flat_map]. now rewrite app_nil_r.
  - intros [key label]. unfold Spec.role_lines_of, Spec.shown_hex, get_or.
    cbn [fst snd flat_map]. repeat split.
    + now intros ->.
    + intros record ->.
      destruct (lookup "hex" record) as [hex|]; [|reflexivity].
      now intros ->.
    + intros record h -> -> Hne.
      destruct (String.eqb_spec h ""); [contradiction | reflexivity].
  - intros cs cs' Hcs Hperm Hnd. rewrite <- H. apply compose_ext.
    + now rewrite get_or_store_other by discriminate.
    + now rewrite get_or_store_other by discriminate.
    + intros acc rs. rewrite get_or_store_same, Hcs.
      assert (E : forall k, lookup k cs' = lookup k cs).
      { intros k. symmetry. now apply lookup_permutation. }
      unfold py_or.
      destruct (truthy (VDict cs')) eqn:T, (truthy (VDict cs)) eqn:T'.
      * now apply role_loop_ext.
      * apply role_loop_ext. intros k. rewrite E.
        destruct cs; [reflexivity | discriminate T'].
      * apply role_loop_ext. intros k. rewrite <- E.
        destruct cs'; [reflexivity | discriminate T].
      * reflexivity.
Qed.

Lemma role_lines_on_sample :
  exists l,
    truthy (get_or Sample.args "show_hex" (VBool true)) = true
    /\ compose (VDict Sample.palette) (VDict Sample.args) = Ok l
    /\ map fst Sample.colours = ["accent1"; "background"; "danger"; "info"]
    /\ exists count,
         body_lines l
         = ["  Background: #00FF00"; "  Accent 1: #ABC123"]
             ++ count ++ Spec.message_lines Sample.args.
Proof.
  eexists. do 3 (split; [reflexivity|]).
  destruct (proj1 (role_lines_in_canonical_order
                     Sample.palette Sample.args _ eq_refl eq_refl))
    as (count & E & _).
  exists count. exact E.
Defined.

(** C8. The external command is the sequence notifier binary, "-a" and
    the app name when that is non-empty, "-i" and the icon when that is
    non-empty, "-u", the urgency, "-t", [str(timeout)], the title, the
    body; and this is what a live run hands to the operating system. *)
Theorem command_line {RT : PyRuntime} (p a : dict) (l : locals) :
  compose (VDict p) (VDict a) = Ok l ->
  cmd l = [VStr "notify-send"]
          ++ (if truthy (app_name l) then [VStr "-a"; app_name l] else [])
          ++ (if truthy (icon l) then [VStr "-i"; icon l] else [])
          ++ [VStr "-u"; urgency l; VStr "-t"; VStr (py_str (timeout l));
              title l; VStr (body l)]
  /\ app_name l = get_or a "app_name" (VStr "Tinct")
  /\ icon l = get_or a "icon" (VStr "preferences-desktop-theme")
  /\ urgency l = get_or a "urgency" (VStr "normal")
  /\ timeout l = get_or a "timeout" (VInt 10000)
  /\ (forall s, app_name l = VStr s -> (truthy (app_name l) = true <-> s <> ""))
  /\ (forall s, icon l = VStr s -> (truthy (icon l) = true <-> s <> ""))
  /\ (forall notifier dry_run argv,
        truthy dry_run = false ->
        exec_args (cmd l) = Ok argv ->
        spawns_of (fst (send_notification notifier (VDict p) (VDict a) dry_run))
        = [argv]).
Proof.
  intros H.
  assert (Hstr : forall v s, v = VStr s -> (truthy v = true <-> s <> "")).
  { intros v s ->. cbn. destruct (String.eqb_spec s ""); cbn; split; congruence. }
  destruct (compose_ok_inv p a l H) as (theme & roles & count & _ & _ & _ & El).
  do 5 (split; [now rewrite El|]).
  do 2 (split; [intros s Es; exact (Hstr _ _ Es)|]).
  clear El.
  intros notifier dry_run argv Hlive Hargv.
  rewrite send_notification_stages, H, Hlive, Hargv.
  pose proof (proj2 (live_report_quiet (get_or a "verbose" (VBool false))
                       l argv (notifier argv))) as Hquiet.
  destruct (live_report _ l argv (notifier argv)) as [es o].
  cbn [fst] in Hquiet |- *. cbn [spawns_of flat_map app].
  fold (spawns_of es). now rewrite Hquiet.
Qed.

Lemma command_line_on_sample :
  exists l,
    compose (VDict Sample.flat_palette) (VDict []) = Ok l
    /\ cmd l = [VStr "notify-send"; VStr "-a"; VStr "Tinct";
                VStr "-i"; VStr "preferences-desktop-theme";
                VStr "-u"; VStr "normal"; VStr "-t"; VStr "10000";
                VStr "Tinct Colour Palette (Auto Theme)";
                VStr (Text.nl +++ "Total colours extracted: 5")].
Proof.
  eexists. split; [reflexivity|].
  exact (proj1 (command_line Sample.flat_palette [] _ eq_refl)).
Defined.

(** C9. With a non-empty list under [all_colours] and [show_count]
    enabled, the body lines are the role lines, then the blank-line
    prefixed line reporting the number of entries of [all_colours], then
    the message line if any; with [all_colours] absent or empty (falsy),
    or [show_count] disabled, no count line is added. *)
Theorem count_line_reports_all_colours {RT : PyRuntime}
        (p a : dict) (l : locals) :
  compose (VDict p) (VDict a) = Ok l ->
  exists roles,
    for_each (role_step (py_or (get_or p "colours" VNone) (VDict []))
                        (get_or a "show_hex" (VBool true)))
             [] role_order = Ok roles
    /\ body l = Text.join Text.nl (body_lines l)
    /\ (forall items,
          get_or p "all_colours" VNone = VList items -> items <> [] ->
          truthy (get_or a "show_count" (VBool true)) = true ->
          body_lines l
          = roles
              ++ [Text.nl +++ "Total colours extracted: "
                  +++ Text.of_nat (List.length items)]
              ++ Spec.message_lines a)
    /\ (truthy (get_or p "all_colours" VNone) = false
        \/ truthy (get_or a "show_count" (VBool true)) = false ->
        body_lines l = roles ++ Spec.message_lines a).
Proof.
  intros H.
  destruct (compose_ok_inv p a l H)
    as (theme & roles & count & _ & Hloop & Hcount & ->).
  exists roles. cbn [body_lines body].
  split; [exact Hloop|]. split; [reflexivity|]. split.
  - intros items Hall Hne Hshow.
    rewrite Hall, Hshow in Hcount. unfold py_or in Hcount.
    destruct items as [|x items]; [contradiction|].
    cbn in Hcount. injection Hcount as <-. reflexivity.
  - intros Hoff. unfold py_or in Hcount.
    destruct (truthy (get_or p "all_colours" VNone)) eqn:T.
    + destruct Hoff as [Hoff|Hoff]; [discriminate Hoff|].
      rewrite T, Hoff in Hcount. cbn in Hcount. now injection Hcount as <-.
    + cbn in Hcount. now injection Hcount as <-.
Qed.

Lemma count_line_on_sample :
  exists l,
    compose (VDict Sample.flat_palette) (VDict []) = Ok l
    /\ body_lines l = [Text.nl +++ "Total colours extracted: 5"].
Proof.
  eexists. split; [reflexivity|].
  destruct (count_line_reports_all_colours Sample.flat_palette [] _ eq_refl)
    as (roles & Hloop & _ & Hon & _).
  injection Hloop as <-.
  exact (Hon _ eq_refl ltac:(discriminate) eq_refl).
Defined.

(** C7. With the metadata flag as its first argument the plugin prints
    the descriptor, the JSON text with the fields name, type, version and
    enabled, exits with status 0, and does not read standard input,
    whatever is waiting there. *)
Theorem plugin_info_short_circuits {RT : PyRuntime}
        (prog : string) (rest : list string) (stdin : stdin_result)
        (notifier : list string -> run_result) :
  main (prog :: "--plugin-info" :: rest) stdin notifier
  = ([Stdout (json_dumps_indent2 PLUGIN_INFO)], SysExit 0)
  /\ json_dumps_indent2 PLUGIN_INFO = Spec.descriptor_text
  /\ exit_status (snd (main (prog :: "--plugin-info" :: rest) stdin notifier)) = 0%Z
  /\ reads_stdin (fst (main (prog :: "--plugin-info" :: rest) stdin notifier)) = false
  /\ py_item PLUGIN_INFO "name" = Ok (VStr "notify-send")
  /\ py_item PLUGIN_INFO "type" = Ok (VStr "output")
  /\ py_item PLUGIN_INFO "version" = Ok (VStr "1.0.1")
  /\ py_item PLUGIN_INFO "enabled" = Ok (VBool false).
Proof.
  assert (E : main (prog :: "--plugin-info" :: rest) stdin notifier
              = ([Stdout (json_dumps_indent2 PLUGIN_INFO)], SysExit 0)).
  { apply main_plugin_info. unfold plugin_info_requested.
    cbn [List.length nth].
    replace (1 <? S (S (List.length rest)))%nat with true
      by (symmetry; apply Nat.ltb_lt; lia).
    reflexivity. }
  rewrite E. repeat split.
Qed.

(** C2. Validation accepts exactly the objects that have the key
    [colours] or the key [all_colours].  An object with neither, the
    empty object among them, is rejected with the missing-field message
    and exit status 1; the object [{"colours": {}}] is accepted without a
    message, is composed, and reaches the notifier. *)
Theorem validation_accepts_keyed_objects {RT : PyRuntime}
        (argv : list string) (notifier : list string -> run_result) :
  plugin_info_requested argv = false ->
  (forall v,
      snd (validate_palette v) = Return true
      <-> exists d, v = VDict d
                    /\ (lookup "colours" d <> None
                        \/ lookup "all_colours" d <> None))
  /\ (forall v, snd (validate_palette v) = Return true
                \/ snd (validate_palette v) = Return false)
  /\ (forall v, snd (validate_palette v) = Return true ->
                fst (validate_palette v) = [])
  /\ (forall d,
        lookup "colours" d = None -> lookup "all_colours" d = None ->
        main argv (Parsed (VDict d)) notifier
        = ([ReadStdin;
            Stderr "Error: Invalid palette - missing 'colours' or 'all_colours' field"],
           SysExit 1))
  /\ main argv (Parsed (VDict [])) notifier
     = ([ReadStdin;
         Stderr "Error: Invalid palette - missing 'colours' or 'all_colours' field"],
        SysExit 1)
  /\ validate_palette (VDict [("colours", VDict [])]) = ([], Return true)
  /\ (let argv0 := ["notify-send"; "-a"; "Tinct";
                    "-i"; "preferences-desktop-theme"; "-u"; "normal";
                    "-t"; "10000"; "Tinct Colour Palette (Auto Theme)"; ""] in
      (exists l,
          compose (VDict [("colours", VDict [])]) (VDict []) = Ok l
          /\ title l = VStr "Tinct Colour Palette (Auto Theme)"
          /\ body l = ""
          /\ exec_args (cmd l) = Ok argv0)
      /\ exists rest o,
           main argv (Parsed (VDict [("colours", VDict [])])) notifier
           = (ReadStdin :: Spawn argv0 :: rest, o)
           /\ (notifier argv0 = Completed ->
               rest = [Stdout "✓ Notification sent successfully"]
               /\ o = Return tt)).
Proof.
  intros Hargv. split; [|split; [|split; [|split; [|split; [|split]]]]].
  - intros v. split.
    + destruct v as [| | | | | |d]; try discriminate.
      rewrite validate_palette_object. unfold has_colour_field.
      intros H. exists d. split; [reflexivity|].
      destruct (lookup "colours" d); [left; discriminate|].
      destruct (lookup "all_colours" d); [right; discriminate|].
      discriminate H.
    + intros (d & -> & H). rewrite validate_palette_object.
      unfold has_colour_field.
      destruct (lookup "colours" d); [reflexivity|].
      destruct (lookup "all_colours" d); [reflexivity|].
      destruct H as [H|H]; now contradiction H.
  - intros v. destruct v as [| | | | | |d]; try (now right).
    rewrite validate_palette_object.
    destruct (has_colour_field d); [now left | now right].
  - intros v. destruct v as [| | | | | |d]; try discriminate.
    rewrite validate_palette_object.
    now destruct (has_colour_field d).
  - intros d Hc Ha. unfold main. rewrite Hargv.
    cbn [io_bind io_ret app]. rewrite validate_palette_object.
    unfold has_colour_field. now rewrite Hc, Ha.
  - unfold main. rewrite Hargv. reflexivity.
  - reflexivity.
  - cbv zeta.
    set (argv0 := ["notify-send"; "-a"; "Tinct";
                   "-i"; "preferences-desktop-theme"; "-u"; "normal";
                   "-t"; "10000"; "Tinct Colour Palette (Auto Theme)"; ""]).
    assert (C : exists l,
               compose (VDict [("colours", VDict [])]) (VDict []) = Ok l
               /\ title l = VStr "Tinct Colour Palette (Auto Theme)"
               /\ body l = ""
               /\ exec_args (cmd l) = Ok argv0).
    { eexists. do 3 (split; [reflexivity|]).
      exact (exec_args_text argv0 eq_refl eq_refl). }
    split; [exact C|]. destruct C as (l & C & _ & _ & E).
    rewrite (quiet_live_run argv notifier [("colours", VDict [])] [] l argv0
               Hargv eq_refl eq_refl eq_refl eq_refl C E).
    destruct (notifier argv0) as [| e captured | | e] eqn:N; cbn [live_report].
    + do 2 eexists. split; [reflexivity|]. intros _. now split.
    + destruct (captured =? ""); do 2 eexists;
        (split; [reflexivity | discriminate]).
    + do 2 eexists. split; [reflexivity | discriminate].
    + do 2 eexists. split; [reflexivity | discriminate].
Qed.

Lemma validation_on_sample :
  plugin_info_requested ["notify-send.py"] = false
  /\ main (RT := Reference.runtime) ["notify-send.py"] (Parsed (VDict []))
          Sample.notifier_ok
     = ([ReadStdin;
         Stderr "Error: Invalid palette - missing 'colours' or 'all_colours' field"],
        SysExit 1)
  /\ validate_palette (RT := Reference.runtime) (VDict Sample.empty_colours)
     = ([], Return true).
Proof.
  split; [reflexivity|].
  pose proof (validation_accepts_keyed_objects (RT := Reference.runtime)
                ["notify-send.py"] Sample.notifier_ok eq_refl)
    as (_ & _ & _ & _ & Hempty & Hkeyed & _).
  split; [exact Hempty | exact Hkeyed].
Defined.

(** C10. A palette object in which [colours] or [all_colours] is bound
    to null passes validation, the key being there; and the composer
    then does with the null what it does with an empty mapping or an
    empty list in its place, so that a palette that is otherwise well
    shaped composes, without role lines or without a count line. *)
Theorem null_fields_pass_and_compose {RT : PyRuntime} (p a : dict) :
  lookup "colours" p = Some VNone \/ lookup "all_colours" p = Some VNone ->
  validate_palette (VDict p) = ([], Return true)
  /\ (lookup "colours" p = Some VNone ->
      compose (VDict p) (VDict a)
      = compose (VDict (store "colours" (VDict []) p)) (VDict a))
  /\ (lookup "all_colours" p = Some VNone ->
      compose (VDict p) (VDict a)
      = compose (VDict (store "all_colours" (VList []) p)) (VDict a))
  /\ (lookup "colours" p = Some VNone ->
      theme_type_ok p = true -> all_colours_ok p = true ->
      exists l count,
        compose (VDict p) (VDict a) = Ok l
        /\ body_lines l = count ++ Spec.message_lines a
        /\ (count = [] \/ exists n, count = [Spec.count_line n]))
  /\ (lookup "all_colours" p = Some VNone ->
      forall l, compose (VDict p) (VDict a) = Ok l ->
      exists roles,
        for_each (role_step (py_or (get_or p "colours" VNone) (VDict []))
                            (get_or a "show_hex" (VBool true)))
                 [] role_order = Ok roles
        /\ body_lines l = roles ++ Spec.message_lines a).
Proof.
  intros Hnull. split; [|split; [|split; [|split]]].
  - rewrite validate_palette_object. unfold has_colour_field.
    destruct Hnull as [-> | ->]; [reflexivity|].
    now destruct (lookup "colours" p).
  - intros Hc. apply compose_ext.
    + now rewrite get_or_store_other by discriminate.
    + now rewrite get_or_store_other by discriminate.
    + intros acc roles. rewrite get_or_store_same.
      unfold get_or. now rewrite Hc.
  - intros Hc.
    rewrite (compose_stages p), (compose_stages (store _ _ p)). cbv zeta.
    rewrite get_or_store_same.
    rewrite !(get_or_store_other "all_colours") by discriminate.
    unfold get_or at 3 4. now rewrite Hc.
  - intros Hc Htheme Hall.
    assert (Hmap : colours_is_mapping p = true).
    { unfold colours_is_mapping, get_or. now rewrite Hc. }
    assert (Hcs : colours_of p = []).
    { unfold colours_of, get_or. now rewrite Hc. }
    pose proof (compose_on_shaped p a Htheme Hmap Hall) as C.
    rewrite Hcs in C. cbn in C. destruct C as [l Hl].
    destruct (compose_ok_inv p a l Hl)
      as (theme & roles & count & _ & Hloop & Hcount & El).
    rewrite (colours_mapping p Hmap), Hcs, role_loop_on_mapping in Hloop.
    cbn [forallb role_order role_is_record lookup fst] in Hloop.
    exists l, count. split; [exact Hl|]. split.
    + rewrite El. cbn [body_lines].
      replace roles with (@nil string); [reflexivity|].
      destruct (truthy (get_or a "show_hex" (VBool true)));
        cbn in Hloop; congruence.
    + exact (count_stage_shape _ _ _ Hcount).
  - intros Hc l Hl.
    destruct (compose_ok_inv p a l Hl)
      as (theme & roles & count & _ & Hloop & Hcount & El).
    exists roles. split; [exact Hloop|].
    rewrite El. cbn [body_lines].
    unfold get_or in Hcount at 1. rewrite Hc in Hcount. cbn in Hcount.
    now injection Hcount as <-.
Qed.

Lemma null_colours_on_sample :
  lookup "colours" Sample.null_palette = Some VNone
  /\ validate_palette (VDict Sample.null_palette) = ([], Return true)
  /\ compose (VDict Sample.null_palette) (VDict [])
     = compose (VDict Sample.empty_colours) (VDict []).
Proof.
  split; [reflexivity|].
  pose proof (null_fields_pass_and_compose Sample.null_palette []
                (or_introl eq_refl)) as (Hvalid & Hsame & _).
  split; [exact Hvalid | exact (Hsame eq_refl)].
Defined.

(** C6, as the code has it.  For a palette that passes validation with
    [dry_run] set, no notifier process is ever asked for.  When the
    composition succeeds and the command is made of strings (as they do
    when the palette and the configuration have the types of the data
    model), the run prints the banner and then the dry-run block, with
    the space-joined command line, the resolved title and body and the
    effective settings, as far as standard output can encode the lines:
    when it can encode them all (as it can when none has a lone
    surrogate in it) the run ends with exit status 0, and otherwise it
    stops at the first line it cannot encode, with exit status 1. *)
Theorem dry_run_prints_and_exits_zero {RT : PyRuntime}
        (argv : list string) (notifier : list string -> run_result)
        (p : dict) :
  plugin_info_requested argv = false ->
  has_colour_field p = true ->
  truthy (get_or p "dry_run" (VBool false)) = true ->
  spawns_of (fst (main argv (Parsed (VDict p)) notifier)) = []
  /\ (forall a l command,
        get_or p "plugin_args" (VDict []) = VDict a ->
        compose (VDict p) (VDict a) = Ok l ->
        py_join_parts (cmd l) = Ok command ->
        let lines :=
          Spec.banner (VDict a) (get_or p "dry_run" (VBool false))
          ++ Spec.dry_run_block l command in
        main argv (Parsed (VDict p)) notifier
        = (ReadStdin :: map Stdout (printed lines),
           if forallb stdout_encodes lines then Return tt
           else Raise ValueError)
        /\ (forallb stdout_encodes lines = true ->
            main argv (Parsed (VDict p)) notifier
            = (ReadStdin :: map Stdout lines, Return tt)
            /\ exit_status (snd (main argv (Parsed (VDict p)) notifier))
               = 0%Z)
        /\ (existsb Text.has_surrogate lines = false ->
            forallb stdout_encodes lines = true)
        /\ (forallb stdout_encodes lines = false ->
            exit_status (snd (main argv (Parsed (VDict p)) notifier))
            = 1%Z))
  /\ (forall a,
        get_or p "plugin_args" (VDict []) = VDict a ->
        palette_ok p = true ->
        config_ok a = true ->
        exists l command,
          compose (VDict p) (VDict a) = Ok l
          /\ py_join_parts (cmd l) = Ok command).
Proof.
  intros Hargv Hvalid Hdry.
  assert (Hbanner : forall verbose,
             truthy (py_or verbose (get_or p "dry_run" (VBool false))) = true).
  { intros verbose. unfold py_or.
    destruct (truthy verbose) eqn:T; [exact T | exact Hdry]. }
  split; [|split].
  - destruct (get_or p "plugin_args" (VDict [])) as [| | | | | |a] eqn:Hargs;
      try (rewrite (main_stages argv notifier p Hargv Hvalid), Hargs;
           reflexivity).
    rewrite (main_run argv notifier p a Hargv Hvalid Hargs). cbv zeta.
    cbn [fst]. rewrite spawns_after_banner.
    destruct (negb _ || _); [|reflexivity].
    now apply dry_run_spawns_nothing.
  - intros a l command Hargs Hl Hcmd. cbv zeta.
    set (banner := Spec.banner (VDict a) (get_or p "dry_run" (VBool false))).
    set (block := Spec.dry_run_block l command).
    assert (E : main argv (Parsed (VDict p)) notifier
                = (ReadStdin :: map Stdout (printed (banner ++ block)),
                   if forallb stdout_encodes (banner ++ block) then Return tt
                   else Raise ValueError)).
    { rewrite (main_run argv notifier p a Hargv Hvalid Hargs). cbv zeta.
      rewrite Hbanner, send_notification_stages, Hl, Hdry, Hcmd.
      fold banner. fold block. cbn [negb orb].
      rewrite printed_app, forallb_app. unfold print_lines.
      destruct (forallb stdout_encodes banner) eqn:B; cbn [andb fst snd].
      - now rewrite map_app, (printed_all banner B).
      - now rewrite app_nil_r. }
    split; [exact E|]. split; [|split].
    + intros Hall. rewrite E, Hall, (printed_all _ Hall). now split.
    + intros Htext. clear E.
      induction (banner ++ block) as [|line rest IH]; [reflexivity|].
      cbn in Htext |- *. apply orb_false_iff in Htext as [Hline Hrest].
      now rewrite (stdout_encodes_text line Hline), (IH Hrest).
    + intros Hnot. now rewrite E, Hnot.
  - intros a Hargs Hpal Hcfg.
    destruct (palette_ok_composes p a Hpal) as [l Hl].
    destruct (compose_ok_inv p a l Hl)
      as (theme & roles & count & _ & _ & _ & El).
    destruct (command_is_text a theme
                (Text.join Text.nl (roles ++ count ++ Spec.message_lines a)) Hcfg)
      as [command Hcommand].
    exists l, command. split; [exact Hl|]. now rewrite El.
Qed.

Lemma dry_run_on_sample :
  plugin_info_requested ["notify-send.py"] = false
  /\ has_colour_field Sample.palette = true
  /\ truthy (get_or Sample.palette "dry_run" (VBool false)) = true
  /\ palette_ok Sample.palette = true
  /\ config_ok Sample.args = true
  /\ spawns_of (fst (main ["notify-send.py"] (Parsed (VDict Sample.palette))
                          Sample.notifier_ok)) = []
  /\ exit_status (snd (main ["notify-send.py"] (Parsed (VDict Sample.palette))
                            Sample.notifier_ok)) = 0%Z.
Proof.
  do 5 (split; [reflexivity|]).
  pose proof (dry_run_prints_and_exits_zero
                ["notify-send.py"] Sample.notifier_ok Sample.palette
                eq_refl eq_refl eq_refl) as (Hnone & Hrun & Hshaped).
  split; [exact Hnone|].
  destruct (Hshaped Sample.args eq_refl eq_refl eq_refl)
    as (l & command & Hl & Hcommand).
  destruct (Hrun Sample.args l command eq_refl Hl Hcommand)
    as (_ & Hall & _).
  injection Hl as <-. injection Hcommand as <-.
  exact (proj2 (Hall eq_refl)).
Defined.

(** C6 as stated fails: validation looks at the two keys only, so a
    palette can pass it with [dry_run] set and still end in an uncaught
    exception, exit status 1; once on a colour role bound to a string,
    before the dry-run block, once on a numeric urgency, in the middle
    of it, and once, with every field of the type the data model gives
    it, on a title that standard output cannot encode. *)
Lemma dry_run_raises_on_validated_palette :
  validate_palette (VDict Sample.string_role) = ([], Return true)
  /\ truthy (get_or Sample.string_role "dry_run" (VBool false)) = true
  /\ main ["notify-send.py"] (Parsed (VDict Sample.string_role))
          Sample.notifier_ok
     = (ReadStdin :: map Stdout (Spec.banner (RT := Reference.runtime) (VDict []) (VBool true)),
        Raise AttributeError)
  /\ exit_status (snd (main ["notify-send.py"]
                            (Parsed (VDict Sample.string_role))
                            Sample.notifier_ok)) = 1%Z
  /\ validate_palette (VDict Sample.numeric_urgency) = ([], Return true)
  /\ truthy (get_or Sample.numeric_urgency "dry_run" (VBool false)) = true
  /\ main ["notify-send.py"] (Parsed (VDict Sample.numeric_urgency))
          Sample.notifier_ok
     = (ReadStdin
          :: map Stdout
               (Spec.banner (RT := Reference.runtime)
                  (VDict [("urgency", VInt 5)]) (VBool true)
                ++ ["=== DRY-RUN MODE ===";
                    "Would send notification with command:"]),
        Raise TypeError)
  /\ exit_status (snd (main ["notify-send.py"]
                            (Parsed (VDict Sample.numeric_urgency))
                            Sample.notifier_ok)) = 1%Z
  /\ validate_palette (VDict Sample.surrogate_title) = ([], Return true)
  /\ truthy (get_or Sample.surrogate_title "dry_run" (VBool false)) = true
  /\ palette_ok Sample.surrogate_title = true
  /\ config_ok (RT := Reference.runtime)
               [("title", VStr Sample.lone_surrogate)] = true
  /\ main ["notify-send.py"] (Parsed (VDict Sample.surrogate_title))
          Sample.notifier_ok
     = (ReadStdin
          :: map Stdout
               (Spec.banner (RT := Reference.runtime)
                  (VDict [("title", VStr Sample.lone_surrogate)]) (VBool true)
                ++ ["=== DRY-RUN MODE ===";
                    "Would send notification with command:"]),
        Raise ValueError)
  /\ exit_status (snd (main ["notify-send.py"]
                            (Parsed (VDict Sample.surrogate_title))
                            Sample.notifier_ok)) = 1%Z.
Proof. repeat split. Qed.

(** * Beyond the claims: whole runs

    What a run of [main] does outside the cases above: rejected input,
    live runs and what the notifier answers, the verbose echo, and what
    no run ever does. *)

(** ** Reading a run

    [Stderr] events are the lines the plugin prints there itself; the
    traceback the interpreter writes for an uncaught exception is not an
    event of its own, the run ends in [Raise]. *)

Definition stdout_of (es : list event) : list string :=
  flat_map (fun e => match e with Stdout l => [l] | _ => [] end) es.

Definition stderr_of (es : list event) : list string :=
  flat_map (fun e => match e with Stderr l => [l] | _ => [] end) es.

Section Runs.
Context {RT : PyRuntime}.

(** what gets past [json.load] and [validate_palette] *)
Definition accepted (stdin : stdin_result) : bool :=
  match stdin with
  | Parsed (VDict d) => has_colour_field d
  | _ => false
  end.

(** the one line a rejected input is answered with *)
Definition rejection (stdin : stdin_result) : string :=
  match stdin with
  | JSONDecodeError e => "Error: Failed to parse JSON input: " +++ e
  | ReadFailure e => "Error: Failed to read input: " +++ e
  | Parsed (VDict _) =>
      "Error: Invalid palette - missing 'colours' or 'all_colours' field"
  | Parsed _ => "Error: Invalid palette format - expected JSON object"
  end.

(** the keys [compose] looks up *)
Definition palette_keys : list string :=
  [ "theme_type"; "colours"; "all_colours" ].

Definition config_keys : list string :=
  [ "urgency"; "timeout"; "title_prefix"; "show_hex"; "show_count";
    "app_name"; "icon"; "title"; "message" ].

End Runs.

(** more sample input, on the reference run time *)
Module Cases.

(** a live, quiet run of the sample colours *)
Definition live_palette : @dict Reference.runtime :=
  [ ("theme_type", VInt 2); ("colours", VDict Sample.colours);
    ("all_colours", Sample.all_colours) ].

(** a live, verbose run with a message that has a colon in it *)
Definition verbose_args : @dict Reference.runtime :=
  [ ("verbose", VBool true); ("message", VStr "note: done") ].

Definition verbose_palette : @dict Reference.runtime :=
  [ ("colours", VDict Sample.colours); ("all_colours", Sample.all_colours);
    ("plugin_args", VDict verbose_args) ].

(** [{"colours": {}, "plugin_args": null}] *)
Definition null_plugin_args : @dict Reference.runtime :=
  [ ("colours", VDict []); ("plugin_args", VNone) ].

(** a numeric urgency, live *)
Definition live_numeric_urgency : @dict Reference.runtime :=
  [ ("colours", VDict []); ("plugin_args", VDict [("urgency", VInt 5)]) ].

(** every setting of the command bound to null *)
Definition null_settings : @dict Reference.runtime :=
  [ ("urgency", VNone); ("timeout", VNone); ("app_name", VNone);
    ("icon", VNone) ].


(** a verbose live run whose title is the surrogate [U+DC80], the form
    an undecodable byte 0x80 takes in a [str] *)
Definition escaped_title_args : @dict Reference.runtime :=
  [ ("verbose", VBool true);
    ("title", VStr (String "237" (String "178" (String "128" "")))) ].

Definition escaped_title : @dict Reference.runtime :=
  [ ("colours", VDict []); ("plugin_args", VDict escaped_title_args) ].


End Cases.

Section RunFacts.
Context {RT : PyRuntime}.

Lemma main_rejects (argv : list string) (stdin : stdin_result)
      (notifier : list string -> run_result) :
  plugin_info_requested argv = false ->
  accepted stdin = false ->
  main argv stdin notifier = ([ReadStdin; Stderr (rejection stdin)], SysExit 1).
Proof.
  intros Hargv Hrej. unfold main. rewrite Hargv.
  destruct stdin as [v|e|e]; try reflexivity.
  cbn [io_bind io_ret app].
  destruct v as [| | | | | |d]; try reflexivity.
  cbn [accepted] in Hrej. now rewrite validate_palette_object, Hrej.
Qed.

(** ** Reading events off lists *)

Lemma stderr_of_app (es es' : list event) :
  stderr_of (es ++ es') = stderr_of es ++ stderr_of es'.
Proof. apply flat_map_app. Qed.

Lemma stderr_of_stdout (lines : list string) : stderr_of (map Stdout lines) = [].
Proof. induction lines; [reflexivity | exact IHlines]. Qed.

Lemma accepted_inv (stdin : stdin_result) :
  accepted stdin = true ->
  exists p, stdin = Parsed (VDict p) /\ has_colour_field p = true.
Proof.
  destruct stdin as [v|e|e]; try discriminate.
  destruct v as [| | | | | |p]; try discriminate.
  intros H. now exists p.
Qed.

(** ** Commands that only print *)

(** A command that writes to standard output only and ends by returning
    or by raising. *)
Definition only_prints (r : io unit) : Prop :=
  (exists lines, fst r = map Stdout lines)
  /\ (snd r = Return tt \/ exists e, snd r = Raise e).

Lemma only_prints_facts (r : io unit) :
  only_prints r ->
  reads_stdin (fst r) = false
  /\ spawns_of (fst r) = []
  /\ stderr_of (fst r) = []
  /\ (forall c, snd r <> SysExit c).
Proof.
  intros [[lines ->] Hend].
  rewrite reads_stdin_stdout, spawns_of_stdout, stderr_of_stdout.
  do 3 (split; [reflexivity|]).
  intros c. destruct Hend as [-> | [e ->]]; discriminate.
Qed.

Lemma raise_only_prints (e : exn) : only_prints ([], Raise e).
Proof. split; [now exists [] | right; now exists e]. Qed.

Lemma print_lines_only_prints (lines : list string) :
  only_prints (print_lines lines).
Proof.
  split; [now exists (printed lines)|]. unfold print_lines. cbn [snd].
  destruct (forallb stdout_encodes lines); [now left | right; now eexists].
Qed.

Lemma print_lines_then_only_prints (lines : list string) (k : io unit) :
  only_prints k -> only_prints (io_bind (print_lines lines) (fun _ => k)).
Proof.
  intros [[after Hafter] Hend]. rewrite print_lines_then.
  destruct (forallb stdout_encodes lines).
  - split; [|exact Hend]. exists (lines ++ after). cbn [fst].
    now rewrite Hafter, map_app.
  - split; [now exists (printed lines) | right; now eexists].
Qed.

(** ** What the answer of the notifier leads to *)

Lemma live_report_facts (verbose : value) (l : locals) (argv : list string)
      (r : run_result) :
  reads_stdin (fst (live_report verbose l argv r)) = false
  /\ spawns_of (fst (live_report verbose l argv r)) = []
  /\ (stderr_of (fst (live_report verbose l argv r)) <> [] <->
      snd (live_report verbose l argv r) = SysExit 1)
  /\ (forall c, snd (live_report verbose l argv r) = SysExit c -> c = 1%Z).
Proof.
  destruct r as [| e captured | | e]; cbn [live_report].
  - destruct (only_prints_facts _ (print_lines_only_prints
                                     (report_lines verbose l argv)))
      as (Hr & Hs & He & Hx).
    rewrite Hr, Hs, He. do 2 (split; [reflexivity|]).
    split; [split; [congruence | intros H; now apply Hx in H]|].
    intros c H. now apply Hx in H.
  - destruct (captured =? ""); cbn; repeat split; auto; congruence.
  - cbn. repeat split; auto; congruence.
  - cbn. repeat split; auto; congruence.
Qed.

(** What holds of every run of [send_notification] on two objects. *)
Lemma send_notification_facts (notifier : list string -> run_result)
      (p a : dict) (dry_run : value) :
  let r := send_notification notifier (VDict p) (VDict a) dry_run in
  reads_stdin (fst r) = false
  /\ (stderr_of (fst r) <> [] <-> snd r = SysExit 1)
  /\ (forall c, snd r = SysExit c -> c = 1%Z)
  /\ (spawns_of (fst r) = []
      \/ exists l argv,
           compose (VDict p) (VDict a) = Ok l
           /\ truthy dry_run = false
           /\ exec_args (cmd l) = Ok argv
           /\ spawns_of (fst r) = [argv]).
Proof.
  cbv zeta.
  assert (Hplain : forall r : io unit,
             only_prints r ->
             reads_stdin (fst r) = false
             /\ (stderr_of (fst r) <> [] <-> snd r = SysExit 1)
             /\ (forall c, snd r = SysExit c -> c = 1%Z)
             /\ (spawns_of (fst r) = []
                 \/ exists l argv,
                      compose (VDict p) (VDict a) = Ok l
                      /\ truthy dry_run = false
                      /\ exec_args (cmd l) = Ok argv
                      /\ spawns_of (fst r) = [argv])).
  { intros r Hr. destruct (only_prints_facts r Hr) as (H1 & H2 & H3 & H4).
    rewrite H3. split; [exact H1|].
    split; [split; [congruence | intros H; now apply H4 in H]|].
    split; [intros c H; now apply H4 in H | now left]. }
  rewrite send_notification_stages.
  destruct (compose (VDict p) (VDict a)) as [l|e] eqn:C.
  2: { apply Hplain, raise_only_prints. }
  destruct (truthy dry_run) eqn:D.
  - destruct (py_join_parts (cmd l)) as [argv|e].
    + apply Hplain, print_lines_only_prints.
    + apply Hplain, print_lines_then_only_prints, raise_only_prints.
  - destruct (exec_args (cmd l)) as [argv|e] eqn:E.
    2: { apply Hplain, raise_only_prints. }
    clear Hplain.
    pose proof (live_report_facts (get_or a "verbose" (VBool false)) l argv
                  (notifier argv)) as (Hr & Hs & He & Hx).
    destruct (live_report _ l argv (notifier argv)) as [es o].
    cbn [fst snd] in *. cbn [reads_stdin existsb orb stderr_of spawns_of
                               flat_map app].
    fold (reads_stdin es). fold (stderr_of es). fold (spawns_of es).
    rewrite Hs. repeat split; auto; try apply He.
    right. exists l, argv. auto.
Qed.

Lemma stderr_after_banner (lines : list string) (es : list event) :
  stderr_of (ReadStdin :: map Stdout lines ++ es) = stderr_of es.
Proof.
  change (stderr_of (map Stdout lines ++ es) = stderr_of es).
  now rewrite stderr_of_app, stderr_of_stdout.
Qed.

(** The command always starts with the notifier binary. *)
Lemma exec_args_head (p a : dict) (l : locals) (argv : list string) :
  compose (VDict p) (VDict a) = Ok l ->
  exec_args (cmd l) = Ok argv ->
  exists rest, argv = "notify-send" :: rest.
Proof.
  intros H E.
  destruct (compose_ok_inv p a l H) as (theme & roles & count & _ & _ & _ & El).
  rewrite El in E. cbn [cmd] in E. unfold Spec.command in E.
  apply exec_args_iff in E as [E _].
  destruct argv as [|first rest]; [discriminate E|].
  exists rest. cbn [app map] in E. congruence.
Qed.


(** What the operating system is handed is the command itself. *)
Lemma exec_args_inv (cmd : list value) (argv : list string) :
  exec_args cmd = Ok argv ->
  cmd = map VStr argv /\ existsb has_nul argv = false.
Proof.
  revert argv. induction cmd as [|v cmd IH]; intros argv H.
  - injection H as <-. now split.
  - destruct v; try discriminate H. cbn in H.
    destruct (fs_encodes s); cbn in H; [|discriminate H].
    destruct (has_nul s) eqn:N; [discriminate H|].
    destruct (exec_args cmd) as [rest|e]; [|discriminate H].
    injection H as <-. destruct (IH rest eq_refl) as [-> Hn].
    cbn. now rewrite N.
Qed.

(** ** Lines with a colon *)

Lemma contains_char_append (c : ascii) (s t : string) :
  Text.contains (String c "") (s +++ t)
  = Text.contains (String c "") s || Text.contains (String c "") t.
Proof.
  induction s as [|x s IH].
  - cbn [String.append]. cbn [Text.contains prefix orb]. reflexivity.
  - cbn [String.append Text.contains prefix].
    rewrite IH. destruct (ascii_dec c x) as [->|Hne].
    + now destruct (s +++ t), s.
    + reflexivity.
Qed.

Lemma role_line_has_colon (label hex : string) :
  Text.contains ":" ("  " +++ label +++ ": " +++ hex) = true.
Proof.
  rewrite !contains_char_append.
  change (Text.contains ":" ": ") with true.
  destruct (Text.contains ":" "  "), (Text.contains ":" label); reflexivity.
Qed.

Lemma role_lines_have_colons (roles : list (string * string)) (cs : dict) :
  filter (Text.contains ":") (Spec.role_lines_of roles cs)
  = Spec.role_lines_of roles cs.
Proof.
  unfold Spec.role_lines_of.
  induction roles as [|role roles IH]; [reflexivity|].
  cbn [flat_map]. rewrite filter_app, IH.
  destruct (Spec.shown_hex cs (fst role)); [|reflexivity].
  cbn [filter]. now rewrite role_line_has_colon.
Qed.

Lemma count_line_has_colon (n : nat) :
  Text.contains ":" (Spec.count_line n) = true.
Proof.
  unfold Spec.count_line. rewrite !contains_char_append.
  change (Text.contains ":" "Total colours extracted: ") with true.
  destruct (Text.contains ":" Text.nl); reflexivity.
Qed.

Lemma join_empty (sep : string) (lines : list string) :
  Forall (fun line => line <> "") lines ->
  Text.join sep lines = "" -> lines = [].
Proof.
  destruct lines as [|x rest]; [reflexivity|].
  intros Hne H. inversion Hne as [|? ? Hx _]; subst.
  destruct x as [|c x]; [contradiction|].
  destruct rest; discriminate H.
Qed.

(** ** Commands that are not text *)

Lemma exec_args_errors (cmd : list value) (e : exn) :
  exec_args cmd = Err e -> e = TypeError \/ e = ValueError.
Proof.
  induction cmd as [|v cmd IH]; [discriminate|].
  destruct v; cbn; try (intros E; left; congruence).
  destruct (negb (fs_encodes s) || has_nul s); [intros E; right; congruence|].
  destruct (exec_args cmd) as [argv|e']; [discriminate|].
  intros E. apply IH. congruence.
Qed.

Lemma exec_args_stops_at_non_text (before after : list value) (v : value) :
  is_str v = false -> exists e, exec_args (before ++ v :: after) = Err e.
Proof.
  intros Hv. induction before as [|x before [e IH]].
  - destruct v; try discriminate Hv; cbn; eauto.
  - destruct x; cbn; eauto.
    destruct (negb (fs_encodes s) || has_nul s); eauto. rewrite IH. eauto.
Qed.

(** An accepted palette writes to standard error only after it has
    asked for a process. *)
Lemma send_quiet_without_spawn (notifier : list string -> run_result)
      (p a : dict) (dry_run : value) :
  spawns_of (fst (send_notification notifier (VDict p) (VDict a) dry_run)) = [] ->
  stderr_of (fst (send_notification notifier (VDict p) (VDict a) dry_run)) = [].
Proof.
  assert (Hplain : forall r : io unit, only_prints r -> stderr_of (fst r) = [])
    by (intros r Hr; apply (only_prints_facts r Hr)).
  rewrite send_notification_stages.
  destruct (compose (VDict p) (VDict a)) as [l|e]; [|reflexivity].
  destruct (truthy dry_run).
  - intros _. destruct (py_join_parts (cmd l)).
    + apply Hplain, print_lines_only_prints.
    + apply Hplain, print_lines_then_only_prints, raise_only_prints.
  - destruct (exec_args (cmd l)) as [argv|e]; [|reflexivity].
    destruct (live_report _ l argv (notifier argv)) as [es o].
    cbn. discriminate.
Qed.

(** ** Runs on an accepted palette *)

(** What the banner leaves of [send_notification]: all of it when the
    banner got through, nothing when it did not. *)
Lemma accepted_run_facts (argv : list string)
      (notifier : list string -> run_result) (p a : dict) :
  plugin_info_requested argv = false ->
  has_colour_field p = true ->
  get_or p "plugin_args" (VDict []) = VDict a ->
  let r := main argv (Parsed (VDict p)) notifier in
  (exists es, fst r = ReadStdin :: es /\ reads_stdin es = false)
  /\ (stderr_of (fst r) <> [] <-> snd r = SysExit 1)
  /\ (forall c, snd r = SysExit c -> c = 1%Z)
  /\ (spawns_of (fst r) = []
      \/ exists l command,
           compose (VDict p) (VDict a) = Ok l
           /\ truthy (get_or p "dry_run" (VBool false)) = false
           /\ exec_args (cmd l) = Ok command
           /\ spawns_of (fst r) = [command])
  /\ (spawns_of (fst r) = [] -> stderr_of (fst r) = []).
Proof.
  intros Hargv Hvalid Hargs. cbv zeta.
  rewrite (main_run argv notifier p a Hargv Hvalid Hargs). cbv zeta.
  cbn [fst snd]. rewrite spawns_after_banner, stderr_after_banner.
  pose proof (send_notification_facts notifier p a
                (get_or p "dry_run" (VBool false))) as (Hr & He & Hx & Hs).
  pose proof (send_quiet_without_spawn notifier p a
                (get_or p "dry_run" (VBool false))) as Hq.
  cbv zeta in Hr, He, Hx, Hs.
  destruct (negb _ || _).
  - split; [|now auto].
    eexists. split; [reflexivity|]. now rewrite reads_after_banner.
  - split; [eexists; split; [reflexivity|]; now rewrite reads_after_banner|].
    cbn. repeat split; auto; congruence.
Qed.

End RunFacts.

(** ** Every run *)

(** X1. Standard input is read exactly when the second command-line
    argument is not the metadata flag, and then once, before anything
    else happens; the flag in any other position is not recognised. *)
Theorem stdin_read_unless_plugin_info {RT : PyRuntime}
        (argv : list string) (stdin : stdin_result)
        (notifier : list string -> run_result) :
  (plugin_info_requested argv = true
   <-> exists prog rest, argv = prog :: "--plugin-info" :: rest)
  /\ (plugin_info_requested argv = true ->
      reads_stdin (fst (main argv stdin notifier)) = false)
  /\ (plugin_info_requested argv = false ->
      exists es, fst (main argv stdin notifier) = ReadStdin :: es
                 /\ reads_stdin es = false).
Proof.
  split; [|split].
  - unfold plugin_info_requested. split.
    + destruct argv as [|prog [|flag rest]]; try discriminate.
      cbn. intros H. destruct (String.eqb_spec flag "--plugin-info") as [->|];
        [|discriminate H].
      now exists prog, rest.
    + intros (prog & rest & ->). reflexivity.
  - intros H. now rewrite (main_plugin_info _ _ _ H).
  - intros Hinfo. destruct (accepted stdin) eqn:Hacc.
    + destruct (accepted_inv _ Hacc) as (p & -> & Hvalid).
      destruct (get_or p "plugin_args" (VDict [])) as [| | | | | |a] eqn:Hargs;
        try (rewrite (main_stages _ _ _ Hinfo Hvalid), Hargs; now eexists).
      apply (accepted_run_facts argv notifier p a Hinfo Hvalid Hargs).
    + rewrite (main_rejects _ _ _ Hinfo Hacc). now eexists.
Qed.

(** X2. The plugin prints an error message of its own exactly in the
    runs it ends with [sys.exit(1)]; it calls [sys.exit] with 0 or 1
    only, with 0 exactly for the metadata query; and a run with exit
    status 0 has printed no error message.  (A run can also end in an
    uncaught exception, with the status the interpreter gives it.) *)
Theorem errors_go_with_failure {RT : PyRuntime}
        (argv : list string) (stdin : stdin_result)
        (notifier : list string -> run_result) :
  (stderr_of (fst (main argv stdin notifier)) <> [] <->
   snd (main argv stdin notifier) = SysExit 1)
  /\ (snd (main argv stdin notifier) = SysExit 0 <->
      plugin_info_requested argv = true)
  /\ (forall c, snd (main argv stdin notifier) = SysExit c ->
                c = 0%Z \/ c = 1%Z)
  /\ (exit_status (snd (main argv stdin notifier)) = 0%Z ->
      stderr_of (fst (main argv stdin notifier)) = []).
Proof.
  assert (H : (stderr_of (fst (main argv stdin notifier)) <> [] <->
               snd (main argv stdin notifier) = SysExit 1)
              /\ (snd (main argv stdin notifier) = SysExit 0 <->
                  plugin_info_requested argv = true)
              /\ (forall c, snd (main argv stdin notifier) = SysExit c ->
                            c = 0%Z \/ c = 1%Z)).
  { destruct (plugin_info_requested argv) eqn:Hinfo.
    - rewrite (main_plugin_info _ _ _ Hinfo). cbn.
      split; [split; [congruence | discriminate]|].
      split; [now split|]. intros c E. left. congruence.
    - destruct (accepted stdin) eqn:Hacc.
      + destruct (accepted_inv _ Hacc) as (p & -> & Hvalid).
        destruct (get_or p "plugin_args" (VDict [])) as [| | | | | |a] eqn:Hargs;
          try (rewrite (main_stages _ _ _ Hinfo Hvalid), Hargs; cbn;
               split; [split; [congruence | discriminate]|];
               split; [split; discriminate | discriminate]).
        destruct (accepted_run_facts argv notifier p a Hinfo Hvalid Hargs)
          as (_ & He & Hx & _).
        cbv zeta in He, Hx. split; [exact He|].
        split; [split; [|discriminate] | intros c E; right; now apply Hx].
        intros E. apply Hx in E. discriminate E.
      + rewrite (main_rejects _ _ _ Hinfo Hacc). cbn.
        split; [split; [reflexivity | discriminate]|].
        split; [split; discriminate|]. intros c E. right. congruence. }
  destruct H as (He & H0 & Hc). do 3 (split; [assumption|]).
  intros Hzero.
  destruct (stderr_of (fst (main argv stdin notifier))) as [|line lines] eqn:S;
    [reflexivity|].
  rewrite (proj1 He) in Hzero by discriminate. discriminate Hzero.
Qed.

(** X3. No run asks for more than one process, and the only program ever
    asked for is [notify-send]: a process is requested only for an
    accepted palette, outside a dry run, after the composition has
    succeeded and the command has turned out to be text without a NUL;
    what is asked for is then the composed command, argument by
    argument. *)
Theorem at_most_one_process {RT : PyRuntime}
        (argv : list string) (stdin : stdin_result)
        (notifier : list string -> run_result) :
  spawns_of (fst (main argv stdin notifier)) = []
  \/ exists p a l rest,
       stdin = Parsed (VDict p)
       /\ has_colour_field p = true
       /\ get_or p "plugin_args" (VDict []) = VDict a
       /\ truthy (get_or p "dry_run" (VBool false)) = false
       /\ compose (VDict p) (VDict a) = Ok l
       /\ cmd l = map VStr ("notify-send" :: rest)
       /\ existsb has_nul ("notify-send" :: rest) = false
       /\ spawns_of (fst (main argv stdin notifier)) = ["notify-send" :: rest].
Proof.
  destruct (plugin_info_requested argv) eqn:Hinfo.
  - rewrite (main_plugin_info _ _ _ Hinfo). now left.
  - destruct (accepted stdin) eqn:Hacc.
    + destruct (accepted_inv _ Hacc) as (p & -> & Hvalid).
      destruct (get_or p "plugin_args" (VDict [])) as [| | | | | |a] eqn:Hargs;
        try (rewrite (main_stages _ _ _ Hinfo Hvalid), Hargs; now left).
      destruct (accepted_run_facts argv notifier p a Hinfo Hvalid Hargs)
        as (_ & _ & _ & Hs & _).
      cbv zeta in Hs.
      destruct Hs as [Hs | (l & command & Hl & Hdry & Hcmd & Hs)];
        [now left|].
      right. destruct (exec_args_head p a l command Hl Hcmd) as [rest ->].
      destruct (exec_args_inv _ _ Hcmd) as [Hmap Hnul].
      exists p, a, l, rest. auto 10.
    + rewrite (main_rejects _ _ _ Hinfo Hacc). now left.
Qed.

(** X5. Input that is not accepted (malformed JSON, a read failure, a
    value that is no object, an object with neither colour field) is
    answered with one line on standard error that starts with "Error: ",
    nothing on standard output, no process, and exit status 1. *)
Theorem rejected_input_fails_fast {RT : PyRuntime}
        (argv : list string) (stdin : stdin_result)
        (notifier : list string -> run_result) :
  plugin_info_requested argv = false ->
  accepted stdin = false ->
  main argv stdin notifier = ([ReadStdin; Stderr (rejection stdin)], SysExit 1)
  /\ prefix "Error: " (rejection stdin) = true
  /\ stdout_of (fst (main argv stdin notifier)) = []
  /\ spawns_of (fst (main argv stdin notifier)) = []
  /\ exit_status (snd (main argv stdin notifier)) = 1%Z.
Proof.
  intros Hinfo Hrej. rewrite (main_rejects _ _ _ Hinfo Hrej).
  repeat split.
  destruct stdin as [v|e|e]; [destruct v|..]; reflexivity.
Qed.

Lemma rejected_input_on_sample :
  plugin_info_requested ["notify-send.py"] = false
  /\ accepted (RT := Reference.runtime) (Parsed (VList [])) = false
  /\ main (RT := Reference.runtime) ["notify-send.py"] (Parsed (VList []))
          Sample.notifier_ok
     = ([ReadStdin;
         Stderr "Error: Invalid palette format - expected JSON object"],
        SysExit 1)
  /\ main (RT := Reference.runtime) ["notify-send.py"]
          (JSONDecodeError "Expecting value: line 1 column 1 (char 0)")
          Sample.notifier_ok
     = ([ReadStdin;
         Stderr "Error: Failed to parse JSON input: Expecting value: line 1 column 1 (char 0)"],
        SysExit 1).
Proof.
  do 2 (split; [reflexivity|]). split.
  - exact (proj1 (rejected_input_fails_fast (RT := Reference.runtime)
                    ["notify-send.py"] (Parsed (VList []))
                    Sample.notifier_ok eq_refl eq_refl)).
  - exact (proj1 (rejected_input_fails_fast (RT := Reference.runtime)
                    ["notify-send.py"]
                    (JSONDecodeError "Expecting value: line 1 column 1 (char 0)")
                    Sample.notifier_ok eq_refl eq_refl)).
Defined.



(** X7. The number a verbose live run reports as "Colours shown" is the
    number of body lines with a colon in them: every role line, but also
    the count line, and the message line when the message has a colon.
    It is printed last, after the success line, the command, the title
    and the icon, in a run whose banner and echo standard output can
    encode. *)
Theorem colours_shown_counts_colon_lines {RT : PyRuntime}
        (argv : list string) (notifier : list string -> run_result)
        (p a : dict) (l : locals) (command : list string) :
  plugin_info_requested argv = false ->
  has_colour_field p = true ->
  get_or p "plugin_args" (VDict []) = VDict a ->
  truthy (get_or p "dry_run" (VBool false)) = false ->
  truthy (get_or a "verbose" (VBool false)) = true ->
  compose (VDict p) (VDict a) = Ok l ->
  exec_args (cmd l) = Ok command ->
  notifier command = Completed ->
  forallb stdout_encodes
          (Spec.banner (VDict a) (get_or p "dry_run" (VBool false))
           ++ [ "  Command: " +++ Text.join " " command;
                "  Title: " +++ py_str (title l);
                "  Icon: " +++ py_str (icon l) ]) = true ->
  exists count,
    let roles := if truthy (get_or a "show_hex" (VBool true))
                 then Spec.role_lines (colours_of p) else [] in
    let shown := (List.length roles + List.length count
                  + match lookup "message" a with
                    | Some m => if Text.contains ":" (py_str m) then 1 else 0
                    | None => 0
                    end)%nat in
    body_lines l = roles ++ count ++ Spec.message_lines a
    /\ (count = [] \/ exists n, count = [Spec.count_line n])
    /\ main argv (Parsed (VDict p)) notifier
       = (ReadStdin
            :: map Stdout (Spec.banner (VDict a) (get_or p "dry_run" (VBool false)))
            ++ Spawn command
            :: map Stdout
                 [ "✓ Notification sent successfully";
                   "  Command: " +++ Text.join " " command;
                   "  Title: " +++ py_str (title l);
                   "  Icon: " +++ py_str (icon l);
                   "  Colours shown: " +++ Text.of_nat shown ],
          Return tt).
Proof.
  intros Hinfo Hvalid Hargs Hdry Hverbose Hl Hcmd Hdone Henc.
  destruct (compose_body_shape p a l Hl) as (count & Hlines & Hcount & _).
  exists count. cbv zeta. split; [exact Hlines|]. split; [exact Hcount|].
  assert (N : colours_shown l
              = (List.length (if truthy (get_or a "show_hex" (VBool true))
                              then Spec.role_lines (colours_of p) else [])
                 + List.length count
                 + match lookup "message" a with
                   | Some m => if Text.contains ":" (py_str m) then 1 else 0
                   | None => 0
                   end)%nat).
  { unfold colours_shown. rewrite Hlines, !filter_app, !length_app.
    rewrite Nat.add_assoc. f_equal; [f_equal|].
    - destruct (truthy (get_or a "show_hex" (VBool true))); [|reflexivity].
      unfold Spec.role_lines. now rewrite role_lines_have_colons.
    - destruct Hcount as [-> | [n ->]]; [reflexivity|].
      cbn [filter]. now rewrite count_line_has_colon.
    - unfold Spec.message_lines.
      destruct (lookup "message" a) as [m|]; [|reflexivity].
      cbn [filter]. rewrite contains_char_append.
      change (Text.contains ":" Text.nl) with false. cbn [orb].
      now destruct (Text.contains ":" (py_str m)). }
  rewrite forallb_app in Henc. apply andb_true_iff in Henc as [Hbanner Hecho].
  cbn [forallb] in Hecho.
  apply andb_true_iff in Hecho as [Hc Hecho].
  apply andb_true_iff in Hecho as [Ht Hecho].
  apply andb_true_iff in Hecho as [Hi _].
  rewrite (live_run_stages argv notifier p a l command
             Hinfo Hvalid Hargs Hdry Hl Hcmd).
  cbv zeta. rewrite Hverbose, Hdone. cbn [live_report].
  unfold report_lines. rewrite Hverbose, N.
  rewrite (print_lines_all _ Hbanner).
  rewrite print_lines_all; [reflexivity|].
  cbn [forallb]. rewrite Hc, Ht, Hi.
  rewrite (stdout_encodes_text "✓ Notification sent successfully" eq_refl).
  unfold Text.of_nat.
  now rewrite (stdout_encodes_text _ (of_Z_no_surrogate "  Colours shown: " _
                                        eq_refl)).
Qed.

Lemma colours_shown_on_sample :
  exists l command,
    compose (VDict Cases.verbose_palette) (VDict Cases.verbose_args) = Ok l
    /\ exec_args (cmd l) = Ok command
    /\ List.length (Spec.role_lines (colours_of Cases.verbose_palette)) = 2
    /\ stdout_of (fst (main ["notify-send.py"]
                            (Parsed (VDict Cases.verbose_palette))
                            Sample.notifier_ok))
       = Spec.banner (VDict Cases.verbose_args) (VBool false)
           ++ [ "✓ Notification sent successfully";
                "  Command: " +++ Text.join " " command;
                "  Title: Tinct Colour Palette (Auto Theme)";
                "  Icon: preferences-desktop-theme";
                "  Colours shown: 4" ]
    /\ exists count,
         body_lines l
         = Spec.role_lines (colours_of Cases.verbose_palette)
             ++ count ++ Spec.message_lines Cases.verbose_args.
Proof.
  do 2 eexists. do 4 (split; [reflexivity|]).
  destruct (colours_shown_counts_colon_lines
              ["notify-send.py"] Sample.notifier_ok
              Cases.verbose_palette Cases.verbose_args _ _
              eq_refl eq_refl eq_refl eq_refl eq_refl eq_refl eq_refl eq_refl
              eq_refl)
    as (count & E & _).
  exists count. exact E.
Defined.

(** The echo of a verbose run can fail after the notification has been
    sent: a title that is one escaped byte goes to the notifier as that
    byte, and standard output cannot encode it. *)
Example verbose_echo_raises_after_sending :
  exists l command,
    compose (VDict Cases.escaped_title) (VDict Cases.escaped_title_args) = Ok l
    /\ exec_args (cmd l) = Ok command
    /\ main ["notify-send.py"] (Parsed (VDict Cases.escaped_title))
            Sample.notifier_ok
       = (ReadStdin
            :: map Stdout (Spec.banner (VDict Cases.escaped_title_args)
                                       (VBool false))
            ++ [ Spawn command; Stdout "✓ Notification sent successfully" ],
          Raise ValueError).
Proof. do 2 eexists. repeat split. Qed.

(** X8. With [show_hex] disabled the body has no role line at all, only
    the count line and the message line; the colour records are read all
    the same, so a role bound to something that is no colour record still
    makes the composition raise. *)
Theorem show_hex_off_hides_role_lines {RT : PyRuntime} (p a : dict) :
  truthy (get_or a "show_hex" (VBool true)) = false ->
  (forall l, compose (VDict p) (VDict a) = Ok l ->
     exists count,
       body_lines l = count ++ Spec.message_lines a
       /\ (count = [] \/ exists n, count = [Spec.count_line n]))
  /\ (theme_type_ok p = true -> colours_is_mapping p = true ->
      all_colours_ok p = true ->
      roles_are_records (colours_of p) = false ->
      compose (VDict p) (VDict a) = Err AttributeError).
Proof.
  intros Hoff. split.
  - intros l Hl.
    destruct (compose_body_shape p a l Hl) as (count & Hlines & Hcount & _).
    exists count. rewrite Hoff in Hlines. now split.
  - intros Htheme Hmap Hall Hbad.
    pose proof (compose_on_shaped p a Htheme Hmap Hall) as C.
    now rewrite Hbad in C.
Qed.

Lemma show_hex_off_on_sample :
  truthy (get_or [("show_hex", @VBool Reference.runtime false)]
                 "show_hex" (VBool true)) = false
  /\ exists l,
       compose (VDict Cases.live_palette) (VDict [("show_hex", VBool false)])
       = Ok l
       /\ body_lines l = [Spec.count_line 5].
Proof.
  split; [reflexivity|]. eexists. split; [reflexivity|].
  destruct (proj1 (show_hex_off_hides_role_lines
                     Cases.live_palette [("show_hex", VBool false)] eq_refl)
                  _ eq_refl) as (count & E & _).
  reflexivity.
Defined.

(** X9. Keys the composer does not know are ignored: binding any other
    key in the palette or in the configuration, to whatever value, leaves
    the composed title, body and command as they were. *)
Theorem unknown_keys_are_ignored {RT : PyRuntime}
        (p a : dict) (k k' : string) (v v' : value) :
  ~ In k palette_keys ->
  ~ In k' config_keys ->
  compose (VDict (store k v p)) (VDict (store k' v' a))
  = compose (VDict p) (VDict a).
Proof.
  intros Hk Hk'.
  assert (Hp : forall key default, In key palette_keys ->
                 get_or (store k v p) key default = get_or p key default).
  { intros key default Hin. apply get_or_store_other. intros ->. now apply Hk. }
  assert (Ha : forall key, In key config_keys ->
                 lookup key (store k' v' a) = lookup key a).
  { intros key Hin. apply lookup_store_other. intros ->. now apply Hk'. }
  assert (Hg : forall key default, In key config_keys ->
                 get_or (store k' v' a) key default = get_or a key default).
  { intros key default Hin. unfold get_or. now rewrite Ha. }
  rewrite !compose_stages. cbv zeta.
  unfold Spec.title_for, Spec.message_lines.
  rewrite !Hp by (cbn; tauto).
  rewrite !Hg by (cbn; tauto).
  rewrite !Ha by (cbn; tauto).
  reflexivity.
Qed.

Lemma unknown_keys_on_sample :
  ~ In "wallpaper" (@palette_keys)
  /\ ~ In "sound" (@config_keys)
  /\ compose (VDict (store "wallpaper" (VStr "sea.jpg") Sample.palette))
             (VDict (store "sound" (VBool true) Sample.args))
     = compose (VDict Sample.palette) (VDict Sample.args).
Proof.
  assert (Hp : ~ In "wallpaper" palette_keys).
  { cbn. intros [E|[E|[E|[]]]]; discriminate E. }
  assert (Ha : ~ In "sound" config_keys).
  { cbn. intros H. repeat (destruct H as [E|H]; [discriminate E|]).
    exact H. }
  split; [exact Hp|]. split; [exact Ha|].
  exact (unknown_keys_are_ignored Sample.palette Sample.args
           "wallpaper" "sound" (VStr "sea.jpg") (VBool true) Hp Ha).
Defined.

(** X10. The theme label outside the integers: a missing [theme_type]
    gives "Auto", but an explicit null gives "Unknown", as does any
    string; [true] and [false] count as 1 and 0; a list or an object
    raises [TypeError].  Whenever there is a label it is one of the four
    "Auto", "Dark", "Light" and "Unknown". *)
Theorem theme_label_off_the_integers {RT : PyRuntime} :
  theme_label VNone = Ok "Unknown"
  /\ (forall s, theme_label (VStr s) = Ok "Unknown")
  /\ (forall b, theme_label (VBool b) = Ok (if b then "Dark" else "Auto"))
  /\ (forall items, theme_label (VList items) = Err TypeError)
  /\ (forall d, theme_label (VDict d) = Err TypeError)
  /\ (forall v label, theme_label v = Ok label ->
        In label ["Auto"; "Dark"; "Light"; "Unknown"])
  /\ (forall p a l,
        lookup "theme_type" p = None ->
        compose (VDict p) (VDict a) = Ok l -> theme_str l = "Auto")
  /\ (forall p a l,
        lookup "theme_type" p = Some VNone ->
        compose (VDict p) (VDict a) = Ok l -> theme_str l = "Unknown").
Proof.
  assert (Hfour : forall k : option Z,
             In (Text.title
                   match k with
                   | Some n =>
                       match find (fun e => (fst e =? n)%Z) theme_map with
                       | Some e => snd e
                       | None => "unknown"
                       end
                   | None => "unknown"
                   end) ["Auto"; "Dark"; "Light"; "Unknown"]).
  { intros [n|]; [|cbn; tauto].
    cbn [theme_map find fst snd].
    destruct (0 =? n)%Z; [cbn; tauto|].
    destruct (1 =? n)%Z; [cbn; tauto|].
    destruct (2 =? n)%Z; cbn; tauto. }
  split; [reflexivity|]. split; [reflexivity|].
  split; [now intros [|]|]. split; [reflexivity|]. split; [reflexivity|].
  split; [|split].
  - intros v label. unfold theme_label, theme_map_get.
    destruct (int_key v) as [k|e]; cbn [res_bind]; [|discriminate].
    intros E. injection E as <-. apply Hfour.
  - intros p a l Habsent Hl.
    destruct (compose_ok_inv p a l Hl) as (theme & ? & ? & Ht & _ & _ & ->).
    unfold get_or in Ht. rewrite Habsent in Ht.
    change (theme_label (VInt 0)) with (@Ok string "Auto") in Ht.
    cbn. congruence.
  - intros p a l Hnull Hl.
    destruct (compose_ok_inv p a l Hl) as (theme & ? & ? & Ht & _ & _ & ->).
    unfold get_or in Ht. rewrite Hnull in Ht.
    change (theme_label VNone) with (@Ok string "Unknown") in Ht.
    cbn. congruence.
Qed.

(** X11. A composed body has at most fifteen lines, thirteen role lines,
    a count line and a message line, and none of them is empty; so the
    body text is empty exactly when there is no line at all. *)
Theorem body_is_bounded {RT : PyRuntime} (p a : dict) (l : locals) :
  compose (VDict p) (VDict a) = Ok l ->
  List.length (body_lines l) <= 15
  /\ Forall (fun line => line <> "") (body_lines l)
  /\ (body l = "" <-> body_lines l = []).
Proof.
  intros Hl.
  destruct (compose_ok_inv p a l Hl)
    as (theme & roles & count & _ & Hloop & Hcount & El).
  destruct (role_loop_adds _ _ _ _ _ Hloop) as (added & Hroles & Hlen & Hne & _).
  cbn [app] in Hroles. subst roles.
  assert (Hc : List.length count <= 1 /\ Forall (fun line => line <> "") count).
  { destruct (count_stage_shape _ _ _ Hcount) as [-> | [n ->]].
    - split; [cbn; lia | constructor].
    - split; [cbn; lia | constructor; [discriminate | constructor]]. }
  assert (Hm : List.length (Spec.message_lines a) <= 1
               /\ Forall (fun line => line <> "") (Spec.message_lines a)).
  { unfold Spec.message_lines. destruct (lookup "message" a).
    - split; [cbn; lia | constructor; [discriminate | constructor]].
    - split; [cbn; lia | constructor]. }
  assert (Hall : Forall (fun line => line <> "")
                        (added ++ count ++ Spec.message_lines a)).
  { apply Forall_app. split; [exact Hne|]. apply Forall_app. tauto. }
  rewrite El. cbn [body_lines body]. split; [|split; [exact Hall|]].
  - rewrite !length_app. change (List.length role_order) with 13 in Hlen. lia.
  - split.
    + now apply join_empty.
    + now intros ->.
Qed.

Lemma body_is_bounded_on_sample :
  exists l,
    compose (VDict Sample.palette) (VDict Sample.args) = Ok l
    /\ List.length (body_lines l) <= 15.
Proof.
  eexists. split; [reflexivity|].
  exact (proj1 (body_is_bounded Sample.palette Sample.args _ eq_refl)).
Defined.

(** X12. Settings that are absent take their defaults: the command is
    [notify-send -a Tinct -i preferences-desktop-theme -u normal -t 10000]
    followed by the title and the body.  Settings bound to null do not:
    a null app name or icon drops its option, a null timeout is passed
    as the text "None", and a null urgency stays in the command as it
    is, so that the command is no text and cannot be run. *)
Theorem absent_settings_default_null_settings_do_not {RT : PyRuntime}
        (p a : dict) (l : locals) :
  compose (VDict p) (VDict a) = Ok l ->
  (lookup "urgency" a = None -> lookup "timeout" a = None ->
   lookup "app_name" a = None -> lookup "icon" a = None ->
   cmd l = [ VStr "notify-send"; VStr "-a"; VStr "Tinct";
             VStr "-i"; VStr "preferences-desktop-theme";
             VStr "-u"; VStr "normal"; VStr "-t"; VStr "10000";
             title l; VStr (body l) ])
  /\ (lookup "urgency" a = Some VNone -> lookup "timeout" a = Some VNone ->
      lookup "app_name" a = Some VNone -> lookup "icon" a = Some VNone ->
      cmd l = [ VStr "notify-send"; VStr "-u"; VNone; VStr "-t"; VStr "None";
                title l; VStr (body l) ]
      /\ exec_args (cmd l) = Err TypeError).
Proof.
  intros Hl.
  destruct (compose_ok_inv p a l Hl) as (theme & roles & count & _ & _ & _ & El).
  rewrite El. cbn [cmd title body]. unfold Spec.command, get_or.
  split.
  - now intros -> -> -> ->.
  - intros -> -> -> ->. split; [reflexivity|].
    cbn [truthy app exec_args].
    now rewrite (fs_encodes_text "notify-send" eq_refl),
                (fs_encodes_text "-u" eq_refl).
Qed.

Lemma null_settings_on_sample :
  exists l,
    compose (VDict Sample.empty_colours) (VDict Cases.null_settings) = Ok l
    /\ cmd l = [ VStr "notify-send"; VStr "-u"; VNone; VStr "-t"; VStr "None";
                 VStr "Tinct Colour Palette (Auto Theme)"; VStr "" ].
Proof.
  eexists. split; [reflexivity|].
  exact (proj1 (proj2 (absent_settings_default_null_settings_do_not
                         Sample.empty_colours Cases.null_settings _ eq_refl)
                      eq_refl eq_refl eq_refl eq_refl)).
Defined.

(** X13. A [plugin_args] that is present but no object (null, a list, a
    string, a number) passes validation and then makes [main] raise
    [AttributeError] at its first [plugin_args.get]: nothing is printed,
    nothing is composed, no process is asked for. *)
Theorem non_object_plugin_args_raise {RT : PyRuntime}
        (argv : list string) (notifier : list string -> run_result)
        (p : dict) (v : value) :
  plugin_info_requested argv = false ->
  has_colour_field p = true ->
  lookup "plugin_args" p = Some v ->
  (forall a, v <> VDict a) ->
  main argv (Parsed (VDict p)) notifier = ([ReadStdin], Raise AttributeError)
  /\ exit_status (snd (main argv (Parsed (VDict p)) notifier)) = 1%Z.
Proof.
  intros Hinfo Hvalid Hv Hno.
  rewrite (main_stages _ _ _ Hinfo Hvalid). unfold get_or. rewrite Hv.
  destruct v as [| | | | | |a]; try (split; reflexivity).
  now contradiction (Hno a).
Qed.

Lemma null_plugin_args_on_sample :
  plugin_info_requested ["notify-send.py"] = false
  /\ has_colour_field Cases.null_plugin_args = true
  /\ lookup "plugin_args" Cases.null_plugin_args = Some VNone
  /\ main ["notify-send.py"] (Parsed (VDict Cases.null_plugin_args))
          Sample.notifier_ok
     = ([ReadStdin], Raise AttributeError).
Proof.
  do 3 (split; [reflexivity|]).
  apply (non_object_plugin_args_raise
           ["notify-send.py"] Sample.notifier_ok Cases.null_plugin_args VNone
           eq_refl eq_refl eq_refl).
  intros a. discriminate.
Defined.

(** X14. A live run whose urgency is no string never gets as far as the
    notifier: converting the command raises [TypeError] (or [ValueError],
    when an argument before it has a NUL in it or cannot be encoded, or
    when the banner of a verbose run cannot be printed), no process is
    asked for, and the plugin prints no error message of its own. *)
Theorem non_text_urgency_never_runs {RT : PyRuntime}
        (argv : list string) (notifier : list string -> run_result)
        (p a : dict) (l : locals) :
  plugin_info_requested argv = false ->
  has_colour_field p = true ->
  get_or p "plugin_args" (VDict []) = VDict a ->
  truthy (get_or p "dry_run" (VBool false)) = false ->
  compose (VDict p) (VDict a) = Ok l ->
  is_str (get_or a "urgency" (VStr "normal")) = false ->
  spawns_of (fst (main argv (Parsed (VDict p)) notifier)) = []
  /\ stderr_of (fst (main argv (Parsed (VDict p)) notifier)) = []
  /\ exists e,
       snd (main argv (Parsed (VDict p)) notifier) = Raise e
       /\ (e = TypeError \/ e = ValueError).
Proof.
  intros Hinfo Hvalid Hargs Hdry Hl Hurgency.
  assert (Hcmd : exists e, exec_args (cmd l) = Err e).
  { destruct (compose_ok_inv p a l Hl) as (? & ? & ? & _ & _ & _ & El).
    rewrite El. cbn [cmd]. unfold Spec.command.
    rewrite !app_assoc.
    match goal with
    | |- context [exec_args (?pre ++ [VStr "-u"; ?u; ?t1; ?t2; ?t3; ?t4])] =>
        change (pre ++ [VStr "-u"; u; t1; t2; t3; t4])
          with (pre ++ VStr "-u" :: u :: [t1; t2; t3; t4]);
        replace (pre ++ VStr "-u" :: u :: [t1; t2; t3; t4])
          with ((pre ++ [VStr "-u"]) ++ u :: [t1; t2; t3; t4])
          by now rewrite <- app_assoc
    end.
    now apply exec_args_stops_at_non_text. }
  destruct Hcmd as [e Hcmd].
  rewrite (main_run argv notifier p a Hinfo Hvalid Hargs). cbv zeta.
  rewrite send_notification_stages, Hl, Hdry, Hcmd. cbn [fst snd].
  rewrite spawns_after_banner, stderr_after_banner.
  destruct (negb _ || _).
  - repeat split. exists e. split; [reflexivity|].
    exact (exec_args_errors _ _ Hcmd).
  - repeat split. exists ValueError. split; [reflexivity | now right].
Qed.

Lemma numeric_urgency_on_sample :
  exists l,
    compose (VDict Cases.live_numeric_urgency) (VDict [("urgency", VInt 5)])
    = Ok l
    /\ main ["notify-send.py"] (Parsed (VDict Cases.live_numeric_urgency))
            Sample.notifier_ok
       = ([ReadStdin], Raise TypeError)
    /\ spawns_of (fst (main ["notify-send.py"]
                            (Parsed (VDict Cases.live_numeric_urgency))
                            Sample.notifier_ok)) = [].
Proof.
  eexists. split; [reflexivity|]. split; [reflexivity|].
  exact (proj1 (non_text_urgency_never_runs
                  ["notify-send.py"] Sample.notifier_ok
                  Cases.live_numeric_urgency [("urgency", VInt 5)] _
                  eq_refl eq_refl eq_refl eq_refl eq_refl eq_refl)).
Defined.

(** X15. Once a palette is accepted, the plugin prints an error message
    of its own only after it has asked for a process: a run that asks
    for none (a dry run, or one that raises on the way) leaves standard
    error to the interpreter. *)
Theorem accepted_runs_complain_only_after_asking {RT : PyRuntime}
        (argv : list string) (stdin : stdin_result)
        (notifier : list string -> run_result) :
  accepted stdin = true ->
  spawns_of (fst (main argv stdin notifier)) = [] ->
  stderr_of (fst (main argv stdin notifier)) = [].
Proof.
  intros Hacc.
  destruct (plugin_info_requested argv) eqn:Hinfo.
  - now rewrite (main_plugin_info _ _ _ Hinfo).
  - destruct (accepted_inv _ Hacc) as (p & -> & Hvalid).
    destruct (get_or p "plugin_args" (VDict [])) as [| | | | | |a] eqn:Hargs;
      try (rewrite (main_stages _ _ _ Hinfo Hvalid), Hargs; reflexivity).
    apply (accepted_run_facts argv notifier p a Hinfo Hvalid Hargs).
Qed.

Lemma accepted_runs_on_sample :
  accepted (Parsed (VDict Sample.string_role)) = true
  /\ spawns_of (fst (main ["notify-send.py"] (Parsed (VDict Sample.string_role))
                          Sample.notifier_ok)) = []
  /\ stderr_of (fst (main ["notify-send.py"] (Parsed (VDict Sample.string_role))
                          Sample.notifier_ok)) = [].
Proof.
  do 2 (split; [reflexivity|]).
  exact (accepted_runs_complain_only_after_asking
           ["notify-send.py"] (Parsed (VDict Sample.string_role))
           Sample.notifier_ok eq_refl eq_refl).
Defined.
